(** * Status reducers and the sweeper of the AWS provider

    A shallow embedding of
    - [internal/service/ec2/status.go] and
      [aws/internal/service/sfn/waiter/status.go]: the state-refresh closures
      ("status reducers") that issue one describe call and reduce the answer
      to a triple (payload, status, error);
    - [internal/sweep/sweep.go]: the regional client cache, the sweep
      orchestrator, the skip table and [DeleteResource].

    Go values are embedded as follows.  A pointer [*T] is [option T] with
    [None] for [nil]; an [error] interface value is [option error]; an
    [interface{}] holding a pointer is [option RawResourceState], where the
    inner constructor remembers the dynamic type and carries the pointer
    (which may itself be a typed nil).  A nil dereference is the outcome
    [Panic] of the [exec] type.  Remote calls are functions from the request
    to the response: the connection is the function. *)

From Stdlib Require Import String Ascii List ZArith Bool Lia DecimalString.
From stdpp Require Import base option strings gmap.
Import ListNotations.

Local Open Scope string_scope.

(** ** Go errors *)

(** The error values the modelled code creates, inspects or passes on:
    an AWS SDK error ([awserr.Error]: code and message), the plugin SDK's
    [*resource.NotFoundError] and [*resource.TimeoutError], a plain text
    error ([errors.New], [fmt.Errorf] without [%w]) and a wrapping error
    ([fmt.Errorf] with a text prefix and [%w]). *)
Inductive error : Type :=
| AwsError (code message : string)
| NotFoundError (message : string)
| TimeoutError (message : string)
| ErrorString (text : string)
| WrapError (text : string) (inner : error).

(** [err.Error()]. *)
Fixpoint Error (e : error) : string :=
  match e with
  | AwsError code message => code +:+ ": " +:+ message
  | NotFoundError message =>
      if String.eqb message "" then "couldn't find resource" else message
  | TimeoutError message => message
  | ErrorString text => text
  | WrapError text inner => text +:+ Error inner
  end.

(** Outcome of a Go computation that may dereference nil. *)
Inductive exec (A : Type) : Type :=
| Return (a : A)
| Panic.
Arguments Return {A} a.
Arguments Panic {A}.

Module strings.
(** [strings.Contains(s, substr)]: [substr] occurs in [s] at some offset. *)
Fixpoint Contains (s substr : string) : bool :=
  if String.prefix substr s then true
  else match s with
       | EmptyString => false
       | String _ rest => Contains rest substr
       end.
End strings.

Module aws.
(** [aws.StringValue]: the pointed-to string, or the empty string. *)
Definition StringValue (p : option string) : string :=
  match p with Some s => s | None => "" end.

(** [aws.BoolValue]: the pointed-to bool, or false. *)
Definition BoolValue (p : option bool) : bool :=
  match p with Some b => b | None => false end.
End aws.

Module strconv.
Definition FormatBool (b : bool) : string := if b then "true" else "false".

Definition digit (c : ascii) : option Z :=
  let n := Z.of_nat (nat_of_ascii c) in
  if (48 <=? n)%Z && (n <=? 57)%Z then Some (n - 48)%Z else None.

Fixpoint digits (s : string) (acc : Z) : option Z :=
  match s with
  | EmptyString => Some acc
  | String c rest =>
      match digit c with
      | Some v => digits rest (10 * acc + v)%Z
      | None => None
      end
  end.

Definition quote (s : string) : string :=
  String (ascii_of_nat 34) s +:+ String (ascii_of_nat 34) EmptyString.

Definition NumError (s reason : string) : error :=
  ErrorString ("strconv.Atoi: parsing " +:+ quote s +:+ ": " +:+ reason).

(** [strconv.Atoi]: an optional sign and decimal digits, in the range of a
    64-bit [int]. *)
Definition Atoi (s : string) : Z * option error :=
  let '(neg, body) :=
    match s with
    | String "-" rest => (true, rest)
    | String "+" rest => (false, rest)
    | _ => (false, s)
    end in
  match body with
  | EmptyString => (0%Z, Some (NumError s "invalid syntax"))
  | _ =>
      match digits body 0 with
      | None => (0%Z, Some (NumError s "invalid syntax"))
      | Some n =>
          let v := if neg then (- n)%Z else n in
          if (v <? - 2 ^ 63)%Z then ((- 2 ^ 63)%Z, Some (NumError s "value out of range"))
          else if (2 ^ 63 - 1 <? v)%Z then
            ((2 ^ 63 - 1)%Z, Some (NumError s "value out of range"))
          else (v, None)
      end
  end.
End strconv.

Module tfawserr.
(** [errors.As(err, &awsErr)]: the first AWS error on the unwrap chain. *)
Fixpoint as_awserr (e : error) : option (string * string) :=
  match e with
  | AwsError code message => Some (code, message)
  | WrapError _ inner => as_awserr inner
  | _ => None
  end.

(** [tfawserr.ErrCodeEquals(err, code)]. *)
Definition ErrCodeEquals (err : option error) (code : string) : bool :=
  match err with
  | None => false
  | Some e =>
      match as_awserr e with
      | Some (c, _) => String.eqb c code
      | None => false
      end
  end.

(** [tfawserr.ErrMessageContains(err, code, message)]. *)
Definition ErrMessageContains (err : option error) (code message : string) : bool :=
  match err with
  | None => false
  | Some e =>
      match as_awserr e with
      | Some (c, m) => String.eqb c code && strings.Contains m message
      | None => false
      end
  end.
End tfawserr.

Module resource.
(** [resource.RetryError] of the plugin SDK, with its two constructors. *)
Record RetryError := { Err : error; Retryable : bool }.

Definition RetryableError (err : error) : RetryError :=
  {| Err := err; Retryable := true |}.

Definition NonRetryableError (err : error) : RetryError :=
  {| Err := err; Retryable := false |}.
End resource.

Module tfresource.
(** Modelled from the spec: [tfresource.NotFound] (package
    [internal/tfresource]) is not among the sources.  The spec's taxonomy
    has [NotFoundError] for "resource absent"; the helper reports whether
    the error is, or wraps, a [NotFoundError]. *)
Fixpoint is_not_found (e : error) : bool :=
  match e with
  | NotFoundError _ => true
  | WrapError _ inner => is_not_found inner
  | _ => false
  end.

(** Modelled from the spec: [tfresource.NotFound] on a possibly nil error; a
    nil error is not a not-found error. *)
Definition NotFound (err : option error) : bool :=
  match err with
  | None => false
  | Some e => is_not_found e
  end.

(** Modelled from the spec: the states of the retry driver of section 4.2,
    which stands for [tfresource.RetryConfigContext], not among the sources.
    [Timeout] is the state the spec calls TimedOut. *)
Inductive DriverState : Type :=
| Pending
| Target
| Failure (err : error)
| Timeout.

(** Modelled from the spec: the transition rule of the retry driver, on
    the answer of one call of the retried function.  No error is the
    target; a retryable error keeps the driver pending; any other error is
    an immediate failure with that error. *)
Definition transition (r : option resource.RetryError) : DriverState :=
  match r with
  | None => Target
  | Some rerr =>
      if resource.Retryable rerr then Pending else Failure (resource.Err rerr)
  end.

(** Modelled from the spec: the loop of the retry driver.  The delays, the
    poll interval, the timeout and the context of the Go signature decide
    how many polls take place before the deadline; the model takes that
    number, [polls].  The retried function [f] is a state transformer on
    [S]; polls are strictly sequential.  While pending and before the
    deadline the driver polls again; at the deadline it stops in
    [Timeout]. *)
Fixpoint drive {S : Type} (polls : nat)
    (f : S -> option resource.RetryError * S) (s : S) : DriverState * S :=
  match polls with
  | O => (Timeout, s)
  | Datatypes.S n =>
      let '(r, s') := f s in
      match transition r with
      | Pending => drive n f s'
      | st => (st, s')
      end
  end.

(** Modelled from the spec: the text of the driver's timeout error; the
    spec fixes none. *)
Definition timeoutMessage : string := "timeout while waiting for state to become 'success'".

(** Modelled from the spec: the one terminal error of a driver run, none on
    success, a [TimeoutError] when the deadline passed while pending. *)
Definition terminalError (st : DriverState) : option error :=
  match st with
  | Target | Pending => None
  | Failure err => Some err
  | Timeout => Some (TimeoutError timeoutMessage)
  end.

(** Modelled from the spec: [tfresource.RetryConfigContext] is not among
    the sources; it is the retry driver of section 4.2. *)
Definition RetryConfigContext {S : Type} (polls : nat)
    (f : S -> option resource.RetryError * S) (s : S) : option error * S :=
  let '(st, s') := drive polls f s in (terminalError st, s').

(** Modelled from the spec: [tfresource.TimedOut] is not among the
    sources; it recognises the [TimeoutError] of the taxonomy (deadline
    exceeded), as opposed to any other error. *)
Definition TimedOut (err : option error) : bool :=
  match err with
  | Some (TimeoutError _) => true
  | _ => false
  end.
End tfresource.

(** ** The EC2 and Step Functions response types

    Only the fields the reducers read are kept.  Field names carry the
    struct's name because projections share one name space. *)
Module ec2.
Record CarrierGateway := { CarrierGateway_State : option string }.

Record LocalGatewayRouteTableVpcAssociation := {
  LocalGatewayRouteTableVpcAssociationId : option string;
  LocalGatewayRouteTableVpcAssociation_State : option string
}.
Record DescribeLocalGatewayRouteTableVpcAssociationsOutput := {
  LocalGatewayRouteTableVpcAssociations :
    list (option LocalGatewayRouteTableVpcAssociation)
}.

Record ClientVpnEndpointStatus := { ClientVpnEndpointStatus_Code : option string }.
Record ClientVpnEndpoint := { ClientVpnEndpoint_Status : option ClientVpnEndpointStatus }.
Record DescribeClientVpnEndpointsOutput := {
  ClientVpnEndpoints : list (option ClientVpnEndpoint)
}.

Record ClientVpnAuthorizationRuleStatus := {
  ClientVpnAuthorizationRuleStatus_Code : option string
}.
Record AuthorizationRule := {
  AuthorizationRule_Status : option ClientVpnAuthorizationRuleStatus
}.
Record DescribeClientVpnAuthorizationRulesOutput := {
  AuthorizationRules : list (option AuthorizationRule)
}.

Record AssociationStatus := { AssociationStatus_Code : option string }.
Record TargetNetwork := { TargetNetwork_Status : option AssociationStatus }.
Record DescribeClientVpnTargetNetworksOutput := {
  ClientVpnTargetNetworks : list (option TargetNetwork)
}.

Record ClientVpnRouteStatus := { ClientVpnRouteStatus_Code : option string }.
Record ClientVpnRoute := { ClientVpnRoute_Status : option ClientVpnRouteStatus }.
Record DescribeClientVpnRoutesOutput := {
  Routes : list (option ClientVpnRoute)
}.

Record IamInstanceProfile := { Arn : option string }.
Record Instance := { Instance_IamInstanceProfile : option IamInstanceProfile }.

Record Route := { DestinationCidrBlock : option string }.
Record RouteTable := { RouteTableId : option string }.

Record RouteTableAssociationState := {
  RouteTableAssociationState_State : option string
}.
Record RouteTableAssociation := {
  AssociationState : option RouteTableAssociationState
}.

Record SecurityGroup := { GroupId : option string }.

Record Subnet := {
  MapCustomerOwnedIpOnLaunch : option bool;
  MapPublicIpOnLaunch : option bool
}.

Record TransitGatewayPrefixListReference := {
  TransitGatewayPrefixListReference_State : option string
}.
Record TransitGatewayRouteTablePropagation := {
  TransitGatewayRouteTablePropagation_State : option string
}.

Record VpcPeeringConnectionStateReason := {
  VpcPeeringConnectionStateReason_Code : option string;
  VpcPeeringConnectionStateReason_Message : option string
}.
Record VpcPeeringConnection := {
  VpcPeeringConnection_Status : option VpcPeeringConnectionStateReason
}.

Record VpcAttachment := { VpcAttachment_State : option string }.
Record Host := { Host_State : option string }.
Record ManagedPrefixList := { ManagedPrefixList_State : option string }.
Record VpcEndpoint := { VpcEndpoint_State : option string }.

Record SnapshotTaskDetail := { SnapshotTaskDetail_Status : option string }.
Record ImportSnapshotTask := {
  ImportSnapshotTask_SnapshotTaskDetail : option SnapshotTaskDetail
}.
Record DescribeImportSnapshotTasksOutput := {
  ImportSnapshotTasks : list (option ImportSnapshotTask)
}.

(** Enumeration values of the AWS SDK. *)
Definition CarrierGatewayStateDeleted := "deleted".
Definition RouteTableAssociationStateCodeDisassociated := "disassociated".
Definition VpcPeeringConnectionStateReasonCodeFailed := "failed".
Definition VpcPeeringConnectionStateReasonCodeDeleted := "deleted".
Definition VpcPeeringConnectionStateReasonCodeExpired := "expired".
Definition VpcPeeringConnectionStateReasonCodeRejected := "rejected".
End ec2.

Module sfn.
Record DescribeStateMachineOutput := { Status : option string }.
End sfn.

Module tfec2.
(** The error codes and the import state of package [tfec2] that
    [status.go] names.  Their declarations are not among the sources, so
    the reducers take them as a parameter. *)
Record Constants := {
  ErrCodeInvalidCarrierGatewayIDNotFound : string;
  ErrCodeClientVPNEndpointIdNotFound : string;
  ErrCodeClientVPNAuthorizationRuleNotFound : string;
  ErrCodeClientVPNAssociationIdNotFound : string;
  ErrCodeClientVPNRouteNotFound : string;
  ErrCodeInvalidInstanceIDNotFound : string;
  ErrCodeInvalidSubnetIDNotFound : string;
  ErrCodeInvalidVPCIDNotFound : string;
  ErrCodeInvalidVPCPeeringConnectionIDNotFound : string;
  InvalidVPNGatewayIDNotFound : string;
  EBSSnapshotImportStateDeleting : string
}.
End tfec2.

(** ** Poll outcomes *)

(** The dynamic value inside a non-nil [interface{}] payload: the pointer
    type and the pointer.  [VPCEndpointRouteTableAssociation] returns the
    string [""] as its payload. *)
Inductive RawResourceState : Type :=
| CarrierGatewayPtr (p : option ec2.CarrierGateway)
| LocalGatewayRouteTableVpcAssociationPtr (p : option ec2.LocalGatewayRouteTableVpcAssociation)
| ClientVpnEndpointPtr (p : option ec2.ClientVpnEndpoint)
| AuthorizationRulePtr (p : option ec2.AuthorizationRule)
| TargetNetworkPtr (p : option ec2.TargetNetwork)
| ClientVpnRoutePtr (p : option ec2.ClientVpnRoute)
| InstancePtr (p : option ec2.Instance)
| RoutePtr (p : option ec2.Route)
| RouteTablePtr (p : option ec2.RouteTable)
| RouteTableAssociationStatePtr (p : option ec2.RouteTableAssociationState)
| SecurityGroupPtr (p : option ec2.SecurityGroup)
| SubnetPtr (p : option ec2.Subnet)
| TransitGatewayPrefixListReferencePtr (p : option ec2.TransitGatewayPrefixListReference)
| TransitGatewayRouteTablePropagationPtr (p : option ec2.TransitGatewayRouteTablePropagation)
| BoolPtr (p : option bool)
| VpcPeeringConnectionPtr (p : option ec2.VpcPeeringConnection)
| VpcAttachmentPtr (p : option ec2.VpcAttachment)
| HostPtr (p : option ec2.Host)
| ManagedPrefixListPtr (p : option ec2.ManagedPrefixList)
| VpcEndpointPtr (p : option ec2.VpcEndpoint)
| StringValue (s : string)
| SnapshotTaskDetailPtr (p : option ec2.SnapshotTaskDetail)
| DescribeStateMachineOutputPtr (p : option sfn.DescribeStateMachineOutput).

(** What a [resource.StateRefreshFunc] returns:
    [(interface{}, string, error)]. *)
Definition PollOutcome : Type :=
  (option RawResourceState * string * option error)%type.

(** ** The status reducers of [internal/service/ec2/status.go] *)

Module fmt.
(** [%d] of a length. *)
Definition d (n : nat) : string := NilZero.string_of_uint (Nat.to_uint n).
End fmt.

Definition carrierGatewayStateNotFound := "NotFound".
Definition carrierGatewayStateUnknown := "Unknown".
Definition ClientVPNEndpointStatusNotFound := "NotFound".
Definition ClientVPNEndpointStatusUnknown := "Unknown".
Definition ClientVPNAuthorizationRuleStatusNotFound := "NotFound".
Definition ClientVPNAuthorizationRuleStatusUnknown := "Unknown".
Definition ClientVPNNetworkAssociationStatusNotFound := "NotFound".
Definition ClientVPNNetworkAssociationStatusUnknown := "Unknown".
Definition ClientVPNRouteStatusNotFound := "NotFound".
Definition ClientVPNRouteStatusUnknown := "Unknown".
Definition RouteStatusReady := "ready".
Definition RouteTableStatusReady := "ready".
Definition SecurityGroupStatusCreated := "Created".
Definition SecurityGroupStatusNotFound := "NotFound".
Definition SecurityGroupStatusUnknown := "Unknown".
Definition vpcPeeringConnectionStatusNotFound := "NotFound".
Definition vpcPeeringConnectionStatusUnknown := "Unknown".
Definition attachmentStateNotFound := "NotFound".
Definition attachmentStateUnknown := "Unknown".
Definition VPCEndpointRouteTableAssociationStatusReady := "ready".
Definition snapshotImportNotFound := "NotFound".

(** The loop of [StatusLocalGatewayRouteTableVPCAssociationState]: the first
    non-nil association whose id is the requested one. *)
Fixpoint firstAssociation (id : string)
    (l : list (option ec2.LocalGatewayRouteTableVpcAssociation))
    : option ec2.LocalGatewayRouteTableVpcAssociation :=
  match l with
  | [] => None
  | None :: rest => firstAssociation id rest
  | Some outputAssociation :: rest =>
      if String.eqb
           (aws.StringValue (ec2.LocalGatewayRouteTableVpcAssociationId outputAssociation))
           id
      then Some outputAssociation
      else firstAssociation id rest
  end.

Section Reducers.

Variable tf : tfec2.Constants.

(** [tfiam.InstanceProfileARNToName], declared outside the given sources. *)
Variable InstanceProfileARNToName : string -> string * option error.

Definition StatusCarrierGatewayState
    (FindCarrierGatewayByID : string -> option ec2.CarrierGateway * option error)
    (carrierGatewayID : string) : exec PollOutcome :=
  let '(carrierGateway, err) := FindCarrierGatewayByID carrierGatewayID in
  if tfawserr.ErrCodeEquals err (tfec2.ErrCodeInvalidCarrierGatewayIDNotFound tf) then
    Return (None, carrierGatewayStateNotFound, None)
  else match err with
  | Some _ => Return (None, carrierGatewayStateUnknown, err)
  | None =>
      match carrierGateway with
      | None => Return (None, carrierGatewayStateNotFound, None)
      | Some cg =>
          let state := aws.StringValue (ec2.CarrierGateway_State cg) in
          if String.eqb state ec2.CarrierGatewayStateDeleted then
            Return (None, carrierGatewayStateNotFound, None)
          else
            Return (Some (CarrierGatewayPtr carrierGateway), state, None)
      end
  end.

Definition StatusLocalGatewayRouteTableVPCAssociationState
    (DescribeLocalGatewayRouteTableVpcAssociations :
       list string ->
       option ec2.DescribeLocalGatewayRouteTableVpcAssociationsOutput * option error)
    (localGatewayRouteTableVpcAssociationID : string) : exec PollOutcome :=
  let '(output, err) :=
    DescribeLocalGatewayRouteTableVpcAssociations [localGatewayRouteTableVpcAssociationID] in
  match err with
  | Some _ => Return (None, "", err)
  | None =>
      match output with
      | None => Panic
      | Some out =>
          let association :=
            firstAssociation localGatewayRouteTableVpcAssociationID
              (ec2.LocalGatewayRouteTableVpcAssociations out) in
          match association with
          | None =>
              Return (Some (LocalGatewayRouteTableVpcAssociationPtr association),
                      ec2.RouteTableAssociationStateCodeDisassociated, None)
          | Some a =>
              Return (Some (LocalGatewayRouteTableVpcAssociationPtr association),
                      aws.StringValue (ec2.LocalGatewayRouteTableVpcAssociation_State a),
                      None)
          end
      end
  end.

Definition StatusClientVPNEndpoint
    (DescribeClientVpnEndpoints :
       list string -> option ec2.DescribeClientVpnEndpointsOutput * option error)
    (endpointID : string) : exec PollOutcome :=
  let '(result, err) := DescribeClientVpnEndpoints [endpointID] in
  if tfawserr.ErrCodeEquals err (tfec2.ErrCodeClientVPNEndpointIdNotFound tf) then
    Return (None, ClientVPNEndpointStatusNotFound, None)
  else match err with
  | Some _ => Return (None, ClientVPNEndpointStatusUnknown, err)
  | None =>
      match result with
      | None => Return (None, ClientVPNEndpointStatusNotFound, None)
      | Some res =>
          match ec2.ClientVpnEndpoints res with
          | [] => Return (None, ClientVPNEndpointStatusNotFound, None)
          | None :: _ => Return (None, ClientVPNEndpointStatusNotFound, None)
          | Some endpoint :: _ =>
              match ec2.ClientVpnEndpoint_Status endpoint with
              | None =>
                  Return (Some (ClientVpnEndpointPtr (Some endpoint)),
                          ClientVPNEndpointStatusUnknown, None)
              | Some status =>
                  match ec2.ClientVpnEndpointStatus_Code status with
                  | None =>
                      Return (Some (ClientVpnEndpointPtr (Some endpoint)),
                              ClientVPNEndpointStatusUnknown, None)
                  | Some code =>
                      Return (Some (ClientVpnEndpointPtr (Some endpoint)),
                              aws.StringValue (Some code), None)
                  end
              end
          end
      end
  end.

Definition StatusClientVPNAuthorizationRule
    (FindClientVPNAuthorizationRuleByID :
       string -> option ec2.DescribeClientVpnAuthorizationRulesOutput * option error)
    (authorizationRuleID : string) : exec PollOutcome :=
  let '(result, err) := FindClientVPNAuthorizationRuleByID authorizationRuleID in
  if tfawserr.ErrCodeEquals err (tfec2.ErrCodeClientVPNAuthorizationRuleNotFound tf) then
    Return (None, ClientVPNAuthorizationRuleStatusNotFound, None)
  else match err with
  | Some _ => Return (None, ClientVPNAuthorizationRuleStatusUnknown, err)
  | None =>
      match result with
      | None => Return (None, ClientVPNAuthorizationRuleStatusNotFound, None)
      | Some res =>
          match ec2.AuthorizationRules res with
          | [] => Return (None, ClientVPNAuthorizationRuleStatusNotFound, None)
          | None :: _ => Return (None, ClientVPNAuthorizationRuleStatusNotFound, None)
          | Some rule :: others =>
              if (1 <? length (ec2.AuthorizationRules res))%nat then
                Return (None, ClientVPNAuthorizationRuleStatusUnknown,
                        Some (ErrorString
                          ("internal error: found "
                           +:+ fmt.d (length (ec2.AuthorizationRules res))
                           +:+ " results for Client VPN authorization rule ("
                           +:+ authorizationRuleID +:+ ") status, need 1")))
              else
                match ec2.AuthorizationRule_Status rule with
                | None =>
                    Return (Some (AuthorizationRulePtr (Some rule)),
                            ClientVPNAuthorizationRuleStatusUnknown, None)
                | Some status =>
                    match ec2.ClientVpnAuthorizationRuleStatus_Code status with
                    | None =>
                        Return (Some (AuthorizationRulePtr (Some rule)),
                                ClientVPNAuthorizationRuleStatusUnknown, None)
                    | Some code =>
                        Return (Some (AuthorizationRulePtr (Some rule)),
                                aws.StringValue (Some code), None)
                    end
                end
          end
      end
  end.

Definition StatusClientVPNNetworkAssociation
    (DescribeClientVpnTargetNetworks :
       string -> list string ->
       option ec2.DescribeClientVpnTargetNetworksOutput * option error)
    (cvnaID cvepID : string) : exec PollOutcome :=
  let '(result, err) := DescribeClientVpnTargetNetworks cvepID [cvnaID] in
  if tfawserr.ErrCodeEquals err (tfec2.ErrCodeClientVPNAssociationIdNotFound tf)
     || tfawserr.ErrCodeEquals err (tfec2.ErrCodeClientVPNEndpointIdNotFound tf) then
    Return (None, ClientVPNNetworkAssociationStatusNotFound, None)
  else match err with
  | Some _ => Return (None, ClientVPNNetworkAssociationStatusUnknown, err)
  | None =>
      match result with
      | None => Return (None, ClientVPNNetworkAssociationStatusNotFound, None)
      | Some res =>
          match ec2.ClientVpnTargetNetworks res with
          | [] => Return (None, ClientVPNNetworkAssociationStatusNotFound, None)
          | None :: _ => Return (None, ClientVPNNetworkAssociationStatusNotFound, None)
          | Some network :: _ =>
              match ec2.TargetNetwork_Status network with
              | None =>
                  Return (Some (TargetNetworkPtr (Some network)),
                          ClientVPNNetworkAssociationStatusUnknown, None)
              | Some status =>
                  match ec2.AssociationStatus_Code status with
                  | None =>
                      Return (Some (TargetNetworkPtr (Some network)),
                              ClientVPNNetworkAssociationStatusUnknown, None)
                  | Some code =>
                      Return (Some (TargetNetworkPtr (Some network)),
                              aws.StringValue (Some code), None)
                  end
              end
          end
      end
  end.

Definition StatusClientVPNRoute
    (FindClientVPNRouteByID :
       string -> option ec2.DescribeClientVpnRoutesOutput * option error)
    (routeID : string) : exec PollOutcome :=
  let '(result, err) := FindClientVPNRouteByID routeID in
  if tfawserr.ErrCodeEquals err (tfec2.ErrCodeClientVPNRouteNotFound tf) then
    Return (None, ClientVPNRouteStatusNotFound, None)
  else match err with
  | Some _ => Return (None, ClientVPNRouteStatusUnknown, err)
  | None =>
      match result with
      | None => Return (None, ClientVPNRouteStatusNotFound, None)
      | Some res =>
          match ec2.Routes res with
          | [] => Return (None, ClientVPNRouteStatusNotFound, None)
          | None :: _ => Return (None, ClientVPNRouteStatusNotFound, None)
          | Some rule :: others =>
              if (1 <? length (ec2.Routes res))%nat then
                Return (None, ClientVPNRouteStatusUnknown,
                        Some (ErrorString
                          ("internal error: found " +:+ fmt.d (length (ec2.Routes res))
                           +:+ " results for Client VPN route ("
                           +:+ routeID +:+ ") status, need 1")))
              else
                match ec2.ClientVpnRoute_Status rule with
                | None =>
                    Return (Some (ClientVpnRoutePtr (Some rule)),
                            ClientVPNRouteStatusUnknown, None)
                | Some status =>
                    match ec2.ClientVpnRouteStatus_Code status with
                    | None =>
                        Return (Some (ClientVpnRoutePtr (Some rule)),
                                ClientVPNRouteStatusUnknown, None)
                    | Some code =>
                        Return (Some (ClientVpnRoutePtr (Some rule)),
                                aws.StringValue (Some code), None)
                    end
                end
          end
      end
  end.

Definition StatusInstanceIAMInstanceProfile
    (FindInstanceByID : string -> option ec2.Instance * option error)
    (id : string) : exec PollOutcome :=
  let '(instance, err) := FindInstanceByID id in
  if tfawserr.ErrCodeEquals err (tfec2.ErrCodeInvalidInstanceIDNotFound tf) then
    Return (None, "", None)
  else match err with
  | Some _ => Return (None, "", err)
  | None =>
      match instance with
      | None => Return (None, "", None)
      | Some inst =>
          match ec2.Instance_IamInstanceProfile inst with
          | None => Return (Some (InstancePtr instance), "", None)
          | Some profile =>
              match ec2.Arn profile with
              | None => Return (Some (InstancePtr instance), "", None)
              | Some arn =>
                  let '(name, err) := InstanceProfileARNToName (aws.StringValue (Some arn)) in
                  match err with
                  | Some _ => Return (Some (InstancePtr instance), "", err)
                  | None => Return (Some (InstancePtr instance), name, None)
                  end
              end
          end
      end
  end.

Definition StatusRoute
    (routeFinder : string -> string -> option ec2.Route * option error)
    (routeTableID destination : string) : exec PollOutcome :=
  let '(output, err) := routeFinder routeTableID destination in
  if tfresource.NotFound err then Return (None, "", None)
  else match err with
  | Some _ => Return (None, "", err)
  | None => Return (Some (RoutePtr output), RouteStatusReady, None)
  end.

Definition StatusRouteTable
    (FindRouteTableByID : string -> option ec2.RouteTable * option error)
    (id : string) : exec PollOutcome :=
  let '(output, err) := FindRouteTableByID id in
  if tfresource.NotFound err then Return (None, "", None)
  else match err with
  | Some _ => Return (None, "", err)
  | None => Return (Some (RouteTablePtr output), RouteTableStatusReady, None)
  end.

Definition StatusRouteTableAssociationState
    (FindRouteTableAssociationByID :
       string -> option ec2.RouteTableAssociation * option error)
    (id : string) : exec PollOutcome :=
  let '(output, err) := FindRouteTableAssociationByID id in
  if tfresource.NotFound err then Return (None, "", None)
  else match err with
  | Some _ => Return (None, "", err)
  | None =>
      match output with
      | None => Panic
      | Some out =>
          match ec2.AssociationState out with
          | None => Panic
          | Some st =>
              Return (Some (RouteTableAssociationStatePtr (ec2.AssociationState out)),
                      aws.StringValue (ec2.RouteTableAssociationState_State st), None)
          end
      end
  end.

Definition StatusSecurityGroup
    (FindSecurityGroupByID : string -> option ec2.SecurityGroup * option error)
    (id : string) : exec PollOutcome :=
  let '(group, err) := FindSecurityGroupByID id in
  if tfresource.NotFound err then Return (None, SecurityGroupStatusNotFound, None)
  else match err with
  | Some _ => Return (None, SecurityGroupStatusUnknown, err)
  | None => Return (Some (SecurityGroupPtr group), SecurityGroupStatusCreated, None)
  end.

Definition StatusSubnetMapCustomerOwnedIPOnLaunch
    (FindSubnetByID : string -> option ec2.Subnet * option error)
    (id : string) : exec PollOutcome :=
  let '(subnet, err) := FindSubnetByID id in
  if tfawserr.ErrCodeEquals err (tfec2.ErrCodeInvalidSubnetIDNotFound tf) then
    Return (None, "false", None)
  else match err with
  | Some _ => Return (None, "false", err)
  | None =>
      match subnet with
      | None => Return (None, "false", None)
      | Some sn =>
          Return (Some (SubnetPtr subnet),
                  strconv.FormatBool (aws.BoolValue (ec2.MapCustomerOwnedIpOnLaunch sn)),
                  None)
      end
  end.

Definition StatusSubnetMapPublicIPOnLaunch
    (FindSubnetByID : string -> option ec2.Subnet * option error)
    (id : string) : exec PollOutcome :=
  let '(subnet, err) := FindSubnetByID id in
  if tfawserr.ErrCodeEquals err (tfec2.ErrCodeInvalidSubnetIDNotFound tf) then
    Return (None, "false", None)
  else match err with
  | Some _ => Return (None, "false", err)
  | None =>
      match subnet with
      | None => Return (None, "false", None)
      | Some sn =>
          Return (Some (SubnetPtr subnet),
                  strconv.FormatBool (aws.BoolValue (ec2.MapPublicIpOnLaunch sn)),
                  None)
      end
  end.

Definition StatusTransitGatewayPrefixListReferenceState
    (FindTransitGatewayPrefixListReference :
       string -> string -> option ec2.TransitGatewayPrefixListReference * option error)
    (transitGatewayRouteTableID prefixListID : string) : exec PollOutcome :=
  let '(transitGatewayPrefixListReference, err) :=
    FindTransitGatewayPrefixListReference transitGatewayRouteTableID prefixListID in
  match err with
  | Some _ => Return (None, "", err)
  | None =>
      match transitGatewayPrefixListReference with
      | None => Return (None, "", None)
      | Some ref =>
          Return (Some (TransitGatewayPrefixListReferencePtr transitGatewayPrefixListReference),
                  aws.StringValue (ec2.TransitGatewayPrefixListReference_State ref), None)
      end
  end.

Definition StatusTransitGatewayRouteTablePropagationState
    (FindTransitGatewayRouteTablePropagation :
       string -> string -> option ec2.TransitGatewayRouteTablePropagation * option error)
    (transitGatewayRouteTableID transitGatewayAttachmentID : string) : exec PollOutcome :=
  let '(transitGatewayRouteTablePropagation, err) :=
    FindTransitGatewayRouteTablePropagation transitGatewayRouteTableID
      transitGatewayAttachmentID in
  match err with
  | Some _ => Return (None, "", err)
  | None =>
      match transitGatewayRouteTablePropagation with
      | None => Return (None, "", None)
      | Some prop =>
          Return (Some (TransitGatewayRouteTablePropagationPtr
                          transitGatewayRouteTablePropagation),
                  aws.StringValue (ec2.TransitGatewayRouteTablePropagation_State prop), None)
      end
  end.

Definition StatusVPCAttribute
    (FindVPCAttribute : string -> string -> option bool * option error)
    (id attribute : string) : exec PollOutcome :=
  let '(attributeValue, err) := FindVPCAttribute id attribute in
  if tfawserr.ErrCodeEquals err (tfec2.ErrCodeInvalidVPCIDNotFound tf) then
    Return (None, "", None)
  else match err with
  | Some _ => Return (None, "", err)
  | None =>
      match attributeValue with
      | None => Return (None, "", None)
      | Some _ =>
          Return (Some (BoolPtr attributeValue),
                  strconv.FormatBool (aws.BoolValue attributeValue), None)
      end
  end.

Definition StatusVPCPeeringConnection
    (FindVPCPeeringConnectionByID :
       string -> option ec2.VpcPeeringConnection * option error)
    (vpcPeeringConnectionID : string) : exec PollOutcome :=
  let '(vpcPeeringConnection, err) := FindVPCPeeringConnectionByID vpcPeeringConnectionID in
  if tfawserr.ErrCodeEquals err (tfec2.ErrCodeInvalidVPCPeeringConnectionIDNotFound tf) then
    Return (None, vpcPeeringConnectionStatusNotFound, None)
  else match err with
  | Some _ => Return (None, vpcPeeringConnectionStatusUnknown, err)
  | None =>
      match vpcPeeringConnection with
      | None => Return (None, vpcPeeringConnectionStatusNotFound, None)
      | Some pc =>
          match ec2.VpcPeeringConnection_Status pc with
          | None => Return (None, vpcPeeringConnectionStatusNotFound, None)
          | Some status =>
              let statusCode :=
                aws.StringValue (ec2.VpcPeeringConnectionStateReason_Code status) in
              (* case Failed: log a warning, then fall through *)
              if String.eqb statusCode ec2.VpcPeeringConnectionStateReasonCodeFailed then
                Return (None, vpcPeeringConnectionStatusNotFound, None)
              else if String.eqb statusCode ec2.VpcPeeringConnectionStateReasonCodeDeleted
                      || String.eqb statusCode ec2.VpcPeeringConnectionStateReasonCodeExpired
                      || String.eqb statusCode ec2.VpcPeeringConnectionStateReasonCodeRejected
              then
                Return (None, vpcPeeringConnectionStatusNotFound, None)
              else
                Return (Some (VpcPeeringConnectionPtr vpcPeeringConnection), statusCode, None)
          end
      end
  end.

Definition StatusVPNGatewayVPCAttachmentState
    (FindVPNGatewayVPCAttachment :
       string -> string -> option ec2.VpcAttachment * option error)
    (vpnGatewayID vpcID : string) : exec PollOutcome :=
  let '(vpcAttachment, err) := FindVPNGatewayVPCAttachment vpnGatewayID vpcID in
  if tfawserr.ErrCodeEquals err (tfec2.InvalidVPNGatewayIDNotFound tf) then
    Return (None, attachmentStateNotFound, None)
  else match err with
  | Some _ => Return (None, attachmentStateUnknown, err)
  | None =>
      match vpcAttachment with
      | None => Return (None, attachmentStateNotFound, None)
      | Some att =>
          Return (Some (VpcAttachmentPtr vpcAttachment),
                  aws.StringValue (ec2.VpcAttachment_State att), None)
      end
  end.

Definition StatusHostState
    (FindHostByID : string -> option ec2.Host * option error)
    (id : string) : exec PollOutcome :=
  let '(output, err) := FindHostByID id in
  if tfresource.NotFound err then Return (None, "", None)
  else match err with
  | Some _ => Return (None, "", err)
  | None =>
      match output with
      | None => Panic
      | Some out => Return (Some (HostPtr output), aws.StringValue (ec2.Host_State out), None)
      end
  end.

Definition StatusManagedPrefixListState
    (FindManagedPrefixListByID : string -> option ec2.ManagedPrefixList * option error)
    (id : string) : exec PollOutcome :=
  let '(output, err) := FindManagedPrefixListByID id in
  if tfresource.NotFound err then Return (None, "", None)
  else match err with
  | Some _ => Return (None, "", err)
  | None =>
      match output with
      | None => Panic
      | Some out =>
          Return (Some (ManagedPrefixListPtr output),
                  aws.StringValue (ec2.ManagedPrefixList_State out), None)
      end
  end.

Definition StatusVPCEndpointState
    (FindVPCEndpointByID : string -> option ec2.VpcEndpoint * option error)
    (id : string) : exec PollOutcome :=
  let '(output, err) := FindVPCEndpointByID id in
  if tfresource.NotFound err then Return (None, "", None)
  else match err with
  | Some _ => Return (None, "", err)
  | None =>
      match output with
      | None => Panic
      | Some out =>
          Return (Some (VpcEndpointPtr output),
                  aws.StringValue (ec2.VpcEndpoint_State out), None)
      end
  end.

Definition StatusVPCEndpointRouteTableAssociation
    (FindVPCEndpointRouteTableAssociationExists : string -> string -> option error)
    (vpcEndpointID routeTableID : string) : exec PollOutcome :=
  let err := FindVPCEndpointRouteTableAssociationExists vpcEndpointID routeTableID in
  if tfresource.NotFound err then Return (None, "", None)
  else match err with
  | Some _ => Return (None, "", err)
  | None =>
      Return (Some (StringValue ""), VPCEndpointRouteTableAssociationStatusReady, None)
  end.

Definition StatusEBSSnapshotImport
    (DescribeImportSnapshotTasks :
       list string -> option ec2.DescribeImportSnapshotTasksOutput * option error)
    (importTaskId : string) : exec PollOutcome :=
  let '(resp, err) := DescribeImportSnapshotTasks [importTaskId] in
  match err with
  | Some _ => Return (None, "", err)
  | None =>
      match resp with
      | None => Return (None, snapshotImportNotFound, None)
      | Some r =>
          match ec2.ImportSnapshotTasks r with
          | [] => Return (None, snapshotImportNotFound, None)
          | Some task :: _ =>
              let detail := ec2.ImportSnapshotTask_SnapshotTaskDetail task in
              match detail with
              | None => Panic (* detail.Status on a nil detail *)
              | Some dt =>
                  let err :=
                    match ec2.SnapshotTaskDetail_Status dt with
                    | Some _ =>
                        if String.eqb (aws.StringValue (ec2.SnapshotTaskDetail_Status dt))
                                      (tfec2.EBSSnapshotImportStateDeleting tf)
                        then Some (ErrorString "Snapshot import task is deleting")
                        else err
                    | None => err
                    end in
                  Return (Some (SnapshotTaskDetailPtr detail),
                          aws.StringValue (ec2.SnapshotTaskDetail_Status dt), err)
              end
          | None :: _ => Return (None, snapshotImportNotFound, None)
          end
      end
  end.

(** [statusStateMachine] of [aws/internal/service/sfn/waiter/status.go]. *)
Definition statusStateMachine
    (FindStateMachineByARN : string -> option sfn.DescribeStateMachineOutput * option error)
    (stateMachineArn : string) : exec PollOutcome :=
  let '(output, err) := FindStateMachineByARN stateMachineArn in
  if tfresource.NotFound err then Return (None, "", None)
  else match err with
  | Some _ => Return (None, "", err)
  | None =>
      match output with
      | None => Panic
      | Some out =>
          Return (Some (DescribeStateMachineOutputPtr output),
                  aws.StringValue (sfn.Status out), None)
      end
  end.

End Reducers.

(** ** One poll of any reducer

    A [Poll] is a reducer applied to its connection (the describe function)
    and its resource descriptor; [refresh] performs the poll.  Statements
    about "every status reducer and every input" quantify over [Poll]. *)
Inductive Poll : Type :=
| PollCarrierGatewayState
    (find : string -> option ec2.CarrierGateway * option error) (id : string)
| PollLocalGatewayRouteTableVPCAssociationState
    (describe : list string ->
       option ec2.DescribeLocalGatewayRouteTableVpcAssociationsOutput * option error)
    (id : string)
| PollClientVPNEndpoint
    (describe : list string -> option ec2.DescribeClientVpnEndpointsOutput * option error)
    (id : string)
| PollClientVPNAuthorizationRule
    (find : string -> option ec2.DescribeClientVpnAuthorizationRulesOutput * option error)
    (id : string)
| PollClientVPNNetworkAssociation
    (describe : string -> list string ->
       option ec2.DescribeClientVpnTargetNetworksOutput * option error)
    (cvnaID cvepID : string)
| PollClientVPNRoute
    (find : string -> option ec2.DescribeClientVpnRoutesOutput * option error) (id : string)
| PollInstanceIAMInstanceProfile
    (find : string -> option ec2.Instance * option error) (id : string)
| PollRoute
    (routeFinder : string -> string -> option ec2.Route * option error)
    (routeTableID destination : string)
| PollRouteTable (find : string -> option ec2.RouteTable * option error) (id : string)
| PollRouteTableAssociationState
    (find : string -> option ec2.RouteTableAssociation * option error) (id : string)
| PollSecurityGroup (find : string -> option ec2.SecurityGroup * option error) (id : string)
| PollSubnetMapCustomerOwnedIPOnLaunch
    (find : string -> option ec2.Subnet * option error) (id : string)
| PollSubnetMapPublicIPOnLaunch
    (find : string -> option ec2.Subnet * option error) (id : string)
| PollTransitGatewayPrefixListReferenceState
    (find : string -> string -> option ec2.TransitGatewayPrefixListReference * option error)
    (transitGatewayRouteTableID prefixListID : string)
| PollTransitGatewayRouteTablePropagationState
    (find : string -> string -> option ec2.TransitGatewayRouteTablePropagation * option error)
    (transitGatewayRouteTableID transitGatewayAttachmentID : string)
| PollVPCAttribute
    (find : string -> string -> option bool * option error) (id attribute : string)
| PollVPCPeeringConnection
    (find : string -> option ec2.VpcPeeringConnection * option error) (id : string)
| PollVPNGatewayVPCAttachmentState
    (find : string -> string -> option ec2.VpcAttachment * option error)
    (vpnGatewayID vpcID : string)
| PollHostState (find : string -> option ec2.Host * option error) (id : string)
| PollManagedPrefixListState
    (find : string -> option ec2.ManagedPrefixList * option error) (id : string)
| PollVPCEndpointState (find : string -> option ec2.VpcEndpoint * option error) (id : string)
| PollVPCEndpointRouteTableAssociation
    (exists_ : string -> string -> option error) (vpcEndpointID routeTableID : string)
| PollEBSSnapshotImport
    (describe : list string -> option ec2.DescribeImportSnapshotTasksOutput * option error)
    (importTaskId : string)
| PollStateMachine
    (find : string -> option sfn.DescribeStateMachineOutput * option error)
    (stateMachineArn : string).

Section Polls.

Variable tf : tfec2.Constants.
Variable InstanceProfileARNToName : string -> string * option error.

(** Calling the closure the reducer returned. *)
Definition refresh (p : Poll) : exec PollOutcome :=
  match p with
  | PollCarrierGatewayState f id => StatusCarrierGatewayState tf f id
  | PollLocalGatewayRouteTableVPCAssociationState f id =>
      StatusLocalGatewayRouteTableVPCAssociationState f id
  | PollClientVPNEndpoint f id => StatusClientVPNEndpoint tf f id
  | PollClientVPNAuthorizationRule f id => StatusClientVPNAuthorizationRule tf f id
  | PollClientVPNNetworkAssociation f a e => StatusClientVPNNetworkAssociation tf f a e
  | PollClientVPNRoute f id => StatusClientVPNRoute tf f id
  | PollInstanceIAMInstanceProfile f id =>
      StatusInstanceIAMInstanceProfile tf InstanceProfileARNToName f id
  | PollRoute f rt dst => StatusRoute f rt dst
  | PollRouteTable f id => StatusRouteTable f id
  | PollRouteTableAssociationState f id => StatusRouteTableAssociationState f id
  | PollSecurityGroup f id => StatusSecurityGroup f id
  | PollSubnetMapCustomerOwnedIPOnLaunch f id => StatusSubnetMapCustomerOwnedIPOnLaunch tf f id
  | PollSubnetMapPublicIPOnLaunch f id => StatusSubnetMapPublicIPOnLaunch tf f id
  | PollTransitGatewayPrefixListReferenceState f rt pl =>
      StatusTransitGatewayPrefixListReferenceState f rt pl
  | PollTransitGatewayRouteTablePropagationState f rt att =>
      StatusTransitGatewayRouteTablePropagationState f rt att
  | PollVPCAttribute f id attr => StatusVPCAttribute tf f id attr
  | PollVPCPeeringConnection f id => StatusVPCPeeringConnection tf f id
  | PollVPNGatewayVPCAttachmentState f gw vpc => StatusVPNGatewayVPCAttachmentState tf f gw vpc
  | PollHostState f id => StatusHostState f id
  | PollManagedPrefixListState f id => StatusManagedPrefixListState f id
  | PollVPCEndpointState f id => StatusVPCEndpointState f id
  | PollVPCEndpointRouteTableAssociation f ep rt =>
      StatusVPCEndpointRouteTableAssociation f ep rt
  | PollEBSSnapshotImport f id => StatusEBSSnapshotImport tf f id
  | PollStateMachine f arn => statusStateMachine f arn
  end.

(** The error of the poll's one describe call. *)
Definition describeError (p : Poll) : option error :=
  match p with
  | PollCarrierGatewayState f id => snd (f id)
  | PollLocalGatewayRouteTableVPCAssociationState f id => snd (f [id])
  | PollClientVPNEndpoint f id => snd (f [id])
  | PollClientVPNAuthorizationRule f id => snd (f id)
  | PollClientVPNNetworkAssociation f a e => snd (f e [a])
  | PollClientVPNRoute f id => snd (f id)
  | PollInstanceIAMInstanceProfile f id => snd (f id)
  | PollRoute f rt dst => snd (f rt dst)
  | PollRouteTable f id => snd (f id)
  | PollRouteTableAssociationState f id => snd (f id)
  | PollSecurityGroup f id => snd (f id)
  | PollSubnetMapCustomerOwnedIPOnLaunch f id => snd (f id)
  | PollSubnetMapPublicIPOnLaunch f id => snd (f id)
  | PollTransitGatewayPrefixListReferenceState f rt pl => snd (f rt pl)
  | PollTransitGatewayRouteTablePropagationState f rt att => snd (f rt att)
  | PollVPCAttribute f id attr => snd (f id attr)
  | PollVPCPeeringConnection f id => snd (f id)
  | PollVPNGatewayVPCAttachmentState f gw vpc => snd (f gw vpc)
  | PollHostState f id => snd (f id)
  | PollManagedPrefixListState f id => snd (f id)
  | PollVPCEndpointState f id => snd (f id)
  | PollVPCEndpointRouteTableAssociation f ep rt => f ep rt
  | PollEBSSnapshotImport f id => snd (f [id])
  | PollStateMachine f arn => snd (f arn)
  end.

(** The not-found error class of each resource type: the test the reducer
    applies to the describe error before any other.  Four reducers have
    none. *)
Definition notFoundClass (p : Poll) (err : option error) : bool :=
  match p with
  | PollCarrierGatewayState _ _ =>
      tfawserr.ErrCodeEquals err (tfec2.ErrCodeInvalidCarrierGatewayIDNotFound tf)
  | PollClientVPNEndpoint _ _ =>
      tfawserr.ErrCodeEquals err (tfec2.ErrCodeClientVPNEndpointIdNotFound tf)
  | PollClientVPNAuthorizationRule _ _ =>
      tfawserr.ErrCodeEquals err (tfec2.ErrCodeClientVPNAuthorizationRuleNotFound tf)
  | PollClientVPNNetworkAssociation _ _ _ =>
      tfawserr.ErrCodeEquals err (tfec2.ErrCodeClientVPNAssociationIdNotFound tf)
      || tfawserr.ErrCodeEquals err (tfec2.ErrCodeClientVPNEndpointIdNotFound tf)
  | PollClientVPNRoute _ _ =>
      tfawserr.ErrCodeEquals err (tfec2.ErrCodeClientVPNRouteNotFound tf)
  | PollInstanceIAMInstanceProfile _ _ =>
      tfawserr.ErrCodeEquals err (tfec2.ErrCodeInvalidInstanceIDNotFound tf)
  | PollSubnetMapCustomerOwnedIPOnLaunch _ _ | PollSubnetMapPublicIPOnLaunch _ _ =>
      tfawserr.ErrCodeEquals err (tfec2.ErrCodeInvalidSubnetIDNotFound tf)
  | PollVPCAttribute _ _ _ =>
      tfawserr.ErrCodeEquals err (tfec2.ErrCodeInvalidVPCIDNotFound tf)
  | PollVPCPeeringConnection _ _ =>
      tfawserr.ErrCodeEquals err (tfec2.ErrCodeInvalidVPCPeeringConnectionIDNotFound tf)
  | PollVPNGatewayVPCAttachmentState _ _ _ =>
      tfawserr.ErrCodeEquals err (tfec2.InvalidVPNGatewayIDNotFound tf)
  | PollRoute _ _ _ | PollRouteTable _ _ | PollRouteTableAssociationState _ _
  | PollSecurityGroup _ _ | PollHostState _ _ | PollManagedPrefixListState _ _
  | PollVPCEndpointState _ _ | PollVPCEndpointRouteTableAssociation _ _ _
  | PollStateMachine _ _ =>
      tfresource.NotFound err
  | PollLocalGatewayRouteTableVPCAssociationState _ _
  | PollTransitGatewayPrefixListReferenceState _ _ _
  | PollTransitGatewayRouteTablePropagationState _ _ _
  | PollEBSSnapshotImport _ _ =>
      false
  end.

End Polls.

(** The [NotFound] constant a reducer's resource declares, if it declares
    one. *)
Definition notFoundValue (p : Poll) : option string :=
  match p with
  | PollCarrierGatewayState _ _ => Some carrierGatewayStateNotFound
  | PollClientVPNEndpoint _ _ => Some ClientVPNEndpointStatusNotFound
  | PollClientVPNAuthorizationRule _ _ => Some ClientVPNAuthorizationRuleStatusNotFound
  | PollClientVPNNetworkAssociation _ _ _ => Some ClientVPNNetworkAssociationStatusNotFound
  | PollClientVPNRoute _ _ => Some ClientVPNRouteStatusNotFound
  | PollSecurityGroup _ _ => Some SecurityGroupStatusNotFound
  | PollVPCPeeringConnection _ _ => Some vpcPeeringConnectionStatusNotFound
  | PollVPNGatewayVPCAttachmentState _ _ _ => Some attachmentStateNotFound
  | PollEBSSnapshotImport _ _ => Some snapshotImportNotFound
  | _ => None
  end.

(** The [Unknown] constant a reducer's resource declares, if it declares
    one. *)
Definition unknownValue (p : Poll) : option string :=
  match p with
  | PollCarrierGatewayState _ _ => Some carrierGatewayStateUnknown
  | PollClientVPNEndpoint _ _ => Some ClientVPNEndpointStatusUnknown
  | PollClientVPNAuthorizationRule _ _ => Some ClientVPNAuthorizationRuleStatusUnknown
  | PollClientVPNNetworkAssociation _ _ _ => Some ClientVPNNetworkAssociationStatusUnknown
  | PollClientVPNRoute _ _ => Some ClientVPNRouteStatusUnknown
  | PollSecurityGroup _ _ => Some SecurityGroupStatusUnknown
  | PollVPCPeeringConnection _ _ => Some vpcPeeringConnectionStatusUnknown
  | PollVPNGatewayVPCAttachmentState _ _ _ => Some attachmentStateUnknown
  | _ => None
  end.

(** The status string a reducer without the matching constant returns with a
    nil payload: ["false"] for the two subnet attribute reducers, the empty
    string for the others. *)
Definition blankStatus (p : Poll) : string :=
  match p with
  | PollSubnetMapCustomerOwnedIPOnLaunch _ _ | PollSubnetMapPublicIPOnLaunch _ _ => "false"
  | _ => ""
  end.

(** The status returned on the not-found error class. *)
Definition notFoundStatus (p : Poll) : string :=
  match notFoundValue p with
  | Some s => s
  | None => blankStatus p
  end.

(** The status returned on any other describe error. *)
Definition errorStatus (p : Poll) : string :=
  match unknownValue p with
  | Some s => s
  | None => blankStatus p
  end.

(** ** The sweeper: [internal/sweep/sweep.go] *)

Module diag.
Inductive Severity : Type := Error | Warning.

Record Diagnostic := { Severity_ : Severity; Summary : string }.

Definition Diagnostics : Type := list Diagnostic.
End diag.

Module multierror.






End multierror.

Module schema.
Record ResourceData := { Id : string }.
End schema.

Set Implicit Arguments.

Section Sweep.

(** The provider handle passed to every delete function. *)
Variable Meta : Type.

(** The delete functions of [schema.Resource].  The last argument of each
    is the number of delete calls already made for the same resource: the
    remote side may answer each attempt differently, and the resources of
    one sweep are independent of each other.  The context argument of the
    first two is always [context.Background()] and is left out.  [Delete]
    is taken to be set whenever the other two are nil. *)
Record Resource := {
  DeleteContext : option (schema.ResourceData -> Meta -> nat -> diag.Diagnostics);
  DeleteWithoutTimeout : option (schema.ResourceData -> Meta -> nat -> diag.Diagnostics);
  Delete : schema.ResourceData -> Meta -> nat -> option error
}.

Record SweepResource := {
  d : schema.ResourceData;
  meta : Meta;
  resource : Resource
}.

Definition NewSweepResource (resource : Resource) (d : schema.ResourceData) (meta : Meta)
    : SweepResource :=
  {| d := d; meta := meta; resource := resource |}.

(** The loop over the diagnostics in [DeleteResource]: the first one of
    severity [Error] becomes the returned error. *)
Fixpoint firstErrorDiagnostic (diags : diag.Diagnostics) : option error :=
  match diags with
  | [] => None
  | dg :: rest =>
      match diag.Severity_ dg with
      | diag.Error => Some (ErrorString ("error deleting resource: " +:+ diag.Summary dg))
      | diag.Warning => firstErrorDiagnostic rest
      end
  end.

Definition DeleteResource (resource : Resource) (d : schema.ResourceData) (meta : Meta)
    (attempt : nat) : option error :=
  match DeleteContext resource, DeleteWithoutTimeout resource with
  | Some deleteContext, _ => firstErrorDiagnostic (deleteContext d meta attempt)
  | None, Some deleteWithoutTimeout =>
      firstErrorDiagnostic (deleteWithoutTimeout d meta attempt)
  | None, None => Delete resource d meta attempt
  end.

(** The classification of a delete result inside the retried closure. *)
Definition classify (err : option error) : option resource.RetryError :=
  match err with
  | Some e =>
      if strings.Contains (Error e) "Throttling" then Some (resource.RetryableError e)
      else Some (resource.NonRetryableError e)
  | None => None
  end.

(** The closure handed to [RetryConfigContext]; the state is the number of
    delete attempts made so far. *)
Definition retried (sweepResource : SweepResource) (attempts : nat)
    : option resource.RetryError * nat :=
  let err :=
    DeleteResource (resource sweepResource) (d sweepResource) (meta sweepResource) attempts in
  (classify err, S attempts).

(** The function each sweep resource runs on its goroutine.  Returns the
    item's terminal error and the number of delete attempts it made. *)
Definition sweepOne (polls : nat) (sweepResource : SweepResource) : option error * nat :=
  let '(err, attempts) := tfresource.RetryConfigContext polls (retried sweepResource) 0%nat in
  if tfresource.TimedOut err then
    (DeleteResource (resource sweepResource) (d sweepResource) (meta sweepResource) attempts,
     S attempts)
  else (err, attempts).


End Sweep.

Unset Implicit Arguments.

(** [SkipSweepError]: the chain of tests, in the order of the source. *)
Definition SkipSweepError (err : option error) : bool :=
  if tfawserr.ErrMessageContains err "RequestError" "send request failed" then true
  else if tfawserr.ErrMessageContains err "UnsupportedOperation" "" then true
  else if tfawserr.ErrMessageContains err "InvalidParameterValue"
            "not permitted in this API version for your account" then true
  else if tfawserr.ErrMessageContains err "InvalidParameterValue"
            "Access Denied to API Version" then true
  else if tfawserr.ErrMessageContains err "AccessDeniedException" "" then true
  else if tfawserr.ErrMessageContains err "BadRequestException" "not supported" then true
  else if tfawserr.ErrMessageContains err "InvalidAction" "is not valid" then true
  else if tfawserr.ErrMessageContains err "InvalidAction" "Unavailable Operation" then true
  else if tfawserr.ErrMessageContains err "InvalidKeySigningKeyStatus"
            "cannot be deleted because" then true
  else if tfawserr.ErrMessageContains err "KeySigningKeyInParentDSRecord"
            "Due to DNS lookup failure" then true
  else if tfawserr.ErrMessageContains err "UnsupportedCommandException"
            "command is only supported in" then true
  else false.

(** The skip policy in the spec's words: a fixed table of (error code,
    message substring) entries, evaluated in order; the first matching entry
    decides, no match is a hard failure.  Every entry of the table decides
    "skip".  To be compared with [SkipSweepError]. *)
Definition skipTable : list (string * string) :=
  [ ("RequestError", "send request failed");
    ("UnsupportedOperation", "");
    ("InvalidParameterValue", "not permitted in this API version for your account");
    ("InvalidParameterValue", "Access Denied to API Version");
    ("AccessDeniedException", "");
    ("BadRequestException", "not supported");
    ("InvalidAction", "is not valid");
    ("InvalidAction", "Unavailable Operation");
    ("InvalidKeySigningKeyStatus", "cannot be deleted because");
    ("KeySigningKeyInParentDSRecord", "Due to DNS lookup failure");
    ("UnsupportedCommandException", "command is only supported in") ].

Definition matchesEntry (err : option error) (entry : string * string) : bool :=
  tfawserr.ErrMessageContains err (fst entry) (snd entry).

(** The first matching entry, with its position in the table. *)
Fixpoint firstMatch (err : option error) (table : list (string * string)) (pos : nat)
    : option (nat * (string * string)) :=
  match table with
  | [] => None
  | entry :: rest =>
      if matchesEntry err entry then Some (pos, entry) else firstMatch err rest (S pos)
  end.

Definition skipByTable (err : option error) : bool :=
  match firstMatch err skipTable 0 with
  | Some _ => true
  | None => false
  end.

(** ** The regional client cache *)

Module conns.
Record Config := {
  MaxRetries : Z;
  Region : string;
  AssumeRoleARN : string;
  AssumeRoleDurationSeconds : Z;
  AssumeRoleExternalID : string;
  AssumeRoleSessionName : string
}.

(** A constructed client.  [Serial] is the number of clients constructed
    before it in the process: it stands for the identity of the pointer
    [conf.Client()] returns. *)
Record AWSClient := { Conf : Config; Serial : nat }.

(** The names of the environment variables, constants of package [conns]
    whose declarations are not among the sources. *)
Record EnvVarNames := {
  EnvVarProfile : string;
  EnvVarAccessKeyId : string;
  EnvVarContainerCredentialsFullUri : string;
  EnvVarSecretAccessKey : string;
  EnvVarAssumeRoleARN : string;
  EnvVarAssumeRoleDuration : string;
  EnvVarAssumeRoleExternalID : string;
  EnvVarAssumeRoleSessionName : string
}.

(** Modelled from the spec: [conns.RequireOneOfEnvVar] is not among the
    sources.  The credentials source is selected among several variables:
    the first one that is set is taken, none set is an error. *)
Fixpoint RequireOneOfEnvVar (getenv : string -> string) (names : list string)
    (usageMessage : string) : string * string * option error :=
  match names with
  | [] =>
      ("", "", Some (ErrorString
         ("at least one environment variable must be set. Usage: " +:+ usageMessage)))
  | name :: rest =>
      if String.eqb (getenv name) "" then RequireOneOfEnvVar getenv rest usageMessage
      else (name, getenv name, None)
  end.

(** Modelled from the spec: [conns.RequireEnvVar] is not among the
    sources.  The variable must be set. *)
Definition RequireEnvVar (getenv : string -> string) (name usageMessage : string)
    : string * option error :=
  if String.eqb (getenv name) "" then
    ("", Some (ErrorString
       ("environment variable " +:+ name +:+ " must be set. Usage: " +:+ usageMessage)))
  else (getenv name, None).
End conns.

Definition defaultSweeperAssumeRoleDurationSeconds : Z := 3600.

(** The state of the process that the function reads and writes: the
    package variable [SweeperClients], a map that is nil until some other
    code makes it, and the clients constructed so far. *)
Record Process := {
  SweeperClients : option (gmap string conns.AWSClient);
  constructed : list conns.AWSClient
}.

Section Clients.

Variable names : conns.EnvVarNames.

(** [os.Getenv]. *)
Variable getenv : string -> string.

(** Whether [conf.Client()] fails, given the configuration and the number
    of clients constructed before. *)
Variable dial : conns.Config -> nat -> option error.

(** [SweeperClients[region]] with its [ok]; reading a nil map misses. *)
Definition cached (st : Process) (region : string) : option conns.AWSClient :=
  match SweeperClients st with
  | Some clients => clients !! region
  | None => None
  end.

(** From the check of the credentials variables to the complete
    configuration. *)
Definition configure (region : string) : conns.Config + error :=
  let '(_, _, err) :=
    conns.RequireOneOfEnvVar getenv
      [conns.EnvVarProfile names; conns.EnvVarAccessKeyId names;
       conns.EnvVarContainerCredentialsFullUri names]
      "credentials for running sweepers" in
  match err with
  | Some e => inr e
  | None =>
      let secret :=
        if negb (String.eqb (getenv (conns.EnvVarAccessKeyId names)) "") then
          snd (conns.RequireEnvVar getenv (conns.EnvVarSecretAccessKey names)
                 ("static credentials value when using " +:+ conns.EnvVarAccessKeyId names))
        else None in
      match secret with
      | Some e => inr e
      | None =>
          let conf :=
            {| conns.MaxRetries := 5; conns.Region := region;
               conns.AssumeRoleARN := ""; conns.AssumeRoleDurationSeconds := 0;
               conns.AssumeRoleExternalID := ""; conns.AssumeRoleSessionName := "" |} in
          let role := getenv (conns.EnvVarAssumeRoleARN names) in
          if String.eqb role "" then inl conf
          else
            let v := getenv (conns.EnvVarAssumeRoleDuration names) in
            let duration :=
              if String.eqb v "" then (defaultSweeperAssumeRoleDurationSeconds, None)
              else strconv.Atoi v in
            match snd duration with
            | Some e =>
                inr (WrapError
                       ("environment variable " +:+ conns.EnvVarAssumeRoleDuration names
                        +:+ ": ") e)
            | None =>
                inl {| conns.MaxRetries := 5; conns.Region := region;
                       conns.AssumeRoleARN := role;
                       conns.AssumeRoleDurationSeconds := fst duration;
                       conns.AssumeRoleExternalID :=
                         getenv (conns.EnvVarAssumeRoleExternalID names);
                       conns.AssumeRoleSessionName :=
                         getenv (conns.EnvVarAssumeRoleSessionName names) |}
            end
      end
  end.

(** [conf.Client()]: a new client, recorded as constructed, or an error. *)
Definition Client (conf : conns.Config) (st : Process) : (conns.AWSClient + error) * Process :=
  let n := length (constructed st) in
  match dial conf n with
  | Some e => (inr e, st)
  | None =>
      let client := {| conns.Conf := conf; conns.Serial := n |} in
      (inl client,
       {| SweeperClients := SweeperClients st;
          constructed := (constructed st ++ [client])%list |})
  end.

(** [SweeperClients[region] = client]; assigning into a nil map panics. *)
Definition store (region : string) (client : conns.AWSClient) (st : Process) : exec Process :=
  match SweeperClients st with
  | None => Panic
  | Some clients =>
      Return {| SweeperClients := Some (<[region := client]> clients);
                constructed := constructed st |}
  end.

Definition SharedRegionalSweepClient (region : string) (st : Process)
    : exec (option conns.AWSClient * option error * Process) :=
  match cached st region with
  | Some client => Return (Some client, None, st)
  | None =>
      match configure region with
      | inr e => Return (None, Some e, st)
      | inl conf =>
          match Client conf st with
          | (inr e, st1) => Return (None, Some (WrapError "error getting AWS client: " e), st1)
          | (inl client, st1) =>
              match store region client st1 with
              | Panic => Panic
              | Return st2 => Return (Some client, None, st2)
              end
          end
      end
  end.

(** A sequence of calls by one caller, results dropped. *)
Fixpoint calls (regions : list string) (st : Process) : exec Process :=
  match regions with
  | [] => Return st
  | region :: rest =>
      match SharedRegionalSweepClient region st with
      | Panic => Panic
      | Return (_, _, st1) => calls rest st1
      end
  end.

(** *** Concurrent callers

    A worker inside [SharedRegionalSweepClient] is at one of its three
    accesses to shared state: the lookup, the construction, the
    assignment.  The function holds no lock, so between two accesses of
    one worker any other worker may run.  Each access is one atomic step
    here. *)
Inductive Worker : Type :=
| Ready (region : string)
| Missed (region : string)
| Built (region : string) (client : conns.AWSClient)
| Done (client : option conns.AWSClient) (err : option error)
| Crashed.

Definition workerStep (w : Worker) (st : Process) : Worker * Process :=
  match w with
  | Ready region =>
      match cached st region with
      | Some client => (Done (Some client) None, st)
      | None => (Missed region, st)
      end
  | Missed region =>
      match configure region with
      | inr e => (Done None (Some e), st)
      | inl conf =>
          match Client conf st with
          | (inr e, st1) => (Done None (Some (WrapError "error getting AWS client: " e)), st1)
          | (inl client, st1) => (Built region client, st1)
          end
      end
  | Built region client =>
      match store region client st with
      | Panic => (Crashed, st)
      | Return st1 => (Done (Some client) None, st1)
      end
  | Done _ _ | Crashed => (w, st)
  end.

(** The worker with index [i] takes its next step. *)
Definition stepAt (i : nat) (m : list Worker * Process) : list Worker * Process :=
  match fst m !! i with
  | Some w =>
      let '(w', st') := workerStep w (snd m) in (<[i := w']> (fst m), st')
  | None => m
  end.

(** A schedule names the worker that moves at each step. *)
Definition run (schedule : list nat) (m : list Worker * Process) : list Worker * Process :=
  fold_left (fun m i => stepAt i m) schedule m.

(** The clients constructed for [region]. *)
Definition constructedFor (region : string) (st : Process) : list conns.AWSClient :=
  filter (fun c => conns.Region (conns.Conf c) = region) (constructed st).

End Clients.

(** An environment with a profile and nothing else, and a network on which
    every client construction succeeds. *)
Definition awsEnvVarNames : conns.EnvVarNames :=
  {| conns.EnvVarProfile := "AWS_PROFILE";
     conns.EnvVarAccessKeyId := "AWS_ACCESS_KEY_ID";
     conns.EnvVarContainerCredentialsFullUri := "AWS_CONTAINER_CREDENTIALS_FULL_URI";
     conns.EnvVarSecretAccessKey := "AWS_SECRET_ACCESS_KEY";
     conns.EnvVarAssumeRoleARN := "TF_AWS_ASSUME_ROLE_ARN";
     conns.EnvVarAssumeRoleDuration := "TF_AWS_ASSUME_ROLE_DURATION";
     conns.EnvVarAssumeRoleExternalID := "TF_AWS_ASSUME_ROLE_EXTERNAL_ID";
     conns.EnvVarAssumeRoleSessionName := "TF_AWS_ASSUME_ROLE_SESSION_NAME" |}.

Definition profileOnly (name : string) : string :=
  if String.eqb name "AWS_PROFILE" then "default" else "".

Definition alwaysUp (conf : conns.Config) (n : nat) : option error := None.

Definition emptyCache : Process := {| SweeperClients := Some ∅; constructed := [] |}.

(** The values of the [tfec2] constants in the provider. *)
Definition providerConstants : tfec2.Constants :=
  {| tfec2.ErrCodeInvalidCarrierGatewayIDNotFound := "InvalidCarrierGatewayID.NotFound";
     tfec2.ErrCodeClientVPNEndpointIdNotFound := "InvalidClientVpnEndpointId.NotFound";
     tfec2.ErrCodeClientVPNAuthorizationRuleNotFound :=
       "InvalidClientVpnEndpointAuthorizationRuleNotFound";
     tfec2.ErrCodeClientVPNAssociationIdNotFound := "InvalidClientVpnAssociationId.NotFound";
     tfec2.ErrCodeClientVPNRouteNotFound := "InvalidClientVpnRouteNotFound";
     tfec2.ErrCodeInvalidInstanceIDNotFound := "InvalidInstanceID.NotFound";
     tfec2.ErrCodeInvalidSubnetIDNotFound := "InvalidSubnetID.NotFound";
     tfec2.ErrCodeInvalidVPCIDNotFound := "InvalidVpcID.NotFound";
     tfec2.ErrCodeInvalidVPCPeeringConnectionIDNotFound :=
       "InvalidVpcPeeringConnectionID.NotFound";
     tfec2.InvalidVPNGatewayIDNotFound := "InvalidVpnGatewayID.NotFound";
     tfec2.EBSSnapshotImportStateDeleting := "deleting" |}.

(** An instance-profile ARN is reduced to the text after its last slash;
    used only to run examples. *)
Definition lastSegment (arn : string) : string * option error :=
  (fold_left (fun acc c => if Ascii.eqb c "/" then "" else acc +:+ String c "")
     (list_ascii_of_string arn) "", None).

(** ** Auxiliary notions for the statements *)



(** One delete attempt of a sweep resource; [attempts] earlier ones were
    made. *)
Definition attempt {Meta : Type} (sweepResource : SweepResource Meta) (attempts : nat)
    : option error :=
  DeleteResource (resource sweepResource) (d sweepResource) (meta sweepResource) attempts.

(** A throttled delete: the error text names the throttling. *)
Definition throttled (err : option error) : bool :=
  match err with
  | Some e => strings.Contains (Error e) "Throttling"
  | None => false
  end.

(** *** Concrete inputs *)

(** A route table that is gone: the finder answers with a
    [NotFoundError]. *)
Definition routeTableGone : Poll :=
  PollRouteTable (fun _ => (None, Some (NotFoundError "couldn't find resource")))
    "rtb-0a1b2c3d".

(** A route table whose describe call is refused. *)
Definition routeTableRefused : Poll :=
  PollRouteTable (fun _ => (None, Some (AwsError "UnauthorizedOperation" "not authorized")))
    "rtb-0a1b2c3d".

(** A carrier gateway that is gone, by its API error code. *)
Definition carrierGatewayGone : Poll :=
  PollCarrierGatewayState
    (fun _ => (None, Some (AwsError "InvalidCarrierGatewayID.NotFound" "does not exist")))
    "cagw-0123".

(** A carrier gateway whose describe call is refused. *)
Definition carrierGatewayRefused : Poll :=
  PollCarrierGatewayState
    (fun _ => (None, Some (AwsError "UnauthorizedOperation" "not authorized")))
    "cagw-0123".


(** A peering connection that reached the status code [deleted]. *)
Definition peeringDeleted (id : string) : option ec2.VpcPeeringConnection * option error :=
  (Some {| ec2.VpcPeeringConnection_Status :=
             Some {| ec2.VpcPeeringConnectionStateReason_Code := Some "deleted";
                     ec2.VpcPeeringConnectionStateReason_Message := None |} |},
   None).

(** A describe response whose first import task has no detail. *)
Definition taskWithoutDetail (ids : list string)
    : option ec2.DescribeImportSnapshotTasksOutput * option error :=
  (Some {| ec2.ImportSnapshotTasks :=
             [Some {| ec2.ImportSnapshotTask_SnapshotTaskDetail := None |}] |},
   None).

(** Sweep resources over a unit handle: one that is deleted at once, one
    whose delete is refused, one that is throttled on every attempt and one
    throttled on the first [n] attempts. *)
Definition sweepResourceOf (id : string) (delete : nat -> option error) : SweepResource unit :=
  NewSweepResource (Meta := unit)
    {| DeleteContext := None; DeleteWithoutTimeout := None;
       Delete := fun _ _ attempt => delete attempt |}
    {| schema.Id := id |} tt.

Definition deletedAtOnce (id : string) : SweepResource unit :=
  sweepResourceOf id (fun _ => None).

Definition refusedError : error := AwsError "DependencyViolation" "resource has dependents".

Definition throttlingError : error := AwsError "Throttling" "Rate exceeded".


Definition alwaysThrottled (id : string) : SweepResource unit :=
  sweepResourceOf id (fun _ => Some throttlingError).

Definition throttledFor (n : nat) (id : string) : SweepResource unit :=
  sweepResourceOf id (fun attempt => if (attempt <? n)%nat then Some throttlingError else None).

(** An error that matches two entries of the skip table. *)
Definition invalidActionTwice : option error :=
  Some (AwsError "InvalidAction" "Unavailable Operation: the action is not valid here").

(** Two sweep workers asking for the client of one region, on an initialised
    empty cache. *)
Definition twoWorkers : list Worker * Process :=
  ([Ready "us-west-2"; Ready "us-west-2"], emptyCache).

(** Both workers look up, then both construct, then both assign. *)
Definition bothMissFirst : list nat := [0; 1; 0; 1; 0; 1]%nat.

Definition usWest2Config : conns.Config :=
  {| conns.MaxRetries := 5; conns.Region := "us-west-2";
     conns.AssumeRoleARN := ""; conns.AssumeRoleDurationSeconds := 0;
     conns.AssumeRoleExternalID := ""; conns.AssumeRoleSessionName := "" |}.

(** One worker alone: the three steps in a row. *)
Definition alone (names : conns.EnvVarNames) (getenv : string -> string)
    (dial : conns.Config -> nat -> option error) (region : string) (st : Process)
    : list Worker * Process :=
  run names getenv dial [0; 0; 0]%nat ([Ready region], st).

(** ** Further notions for the statements about the reducers *)

(** The reducers that read a field of the describe answer without a nil
    check on the pointer they read it through. *)
Definition mayDereferenceNil (p : Poll) : bool :=
  match p with
  | PollLocalGatewayRouteTableVPCAssociationState _ _
  | PollRouteTableAssociationState _ _
  | PollHostState _ _
  | PollManagedPrefixListState _ _
  | PollVPCEndpointState _ _
  | PollEBSSnapshotImport _ _
  | PollStateMachine _ _ => true
  | _ => false
  end.

(** The reducers with a return statement that carries both a payload and an
    error. *)
Definition keepsPayloadOnError (p : Poll) : bool :=
  match p with
  | PollInstanceIAMInstanceProfile _ _ | PollEBSSnapshotImport _ _ => true
  | _ => false
  end.



(** A peering connection that is active. *)
Definition peeringActive (id : string) : option ec2.VpcPeeringConnection * option error :=
  (Some {| ec2.VpcPeeringConnection_Status :=
             Some {| ec2.VpcPeeringConnectionStateReason_Code := Some "active";
                     ec2.VpcPeeringConnectionStateReason_Message := None |} |},
   None).

(** A carrier gateway that is available. *)
Definition carrierGatewayAvailable (id : string) : option ec2.CarrierGateway * option error :=
  (Some {| ec2.CarrierGateway_State := Some "available" |}, None).


(** An import task that is being deleted. *)
Definition taskDeleting (ids : list string)
    : option ec2.DescribeImportSnapshotTasksOutput * option error :=
  (Some {| ec2.ImportSnapshotTasks :=
             [Some {| ec2.ImportSnapshotTask_SnapshotTaskDetail :=
                        Some {| ec2.SnapshotTaskDetail_Status := Some "deleting" |} |}] |},
   None).



(** ** Further notions for the statements about the sweeper *)

(** A sweep resource deleted through [DeleteContext], whose delete answers
    with the given diagnostics on every attempt. *)
Definition contextResource (diags : diag.Diagnostics) : Resource unit :=
  {| DeleteContext := Some (fun _ _ _ => diags);
     DeleteWithoutTimeout := None;
     Delete := fun _ _ _ => Some (ErrorString "Delete is not consulted") |}.

(** A warning followed by a throttling error and a second error. *)
Definition throttledDiagnostics : diag.Diagnostics :=
  [ {| diag.Severity_ := diag.Warning; diag.Summary := "deprecated argument" |};
    {| diag.Severity_ := diag.Error; diag.Summary := "Throttling: Rate exceeded" |};
    {| diag.Severity_ := diag.Error; diag.Summary := "second error" |} ].

(** The codes of the skip table, in the order of the tests. *)
Definition skipCodes : list string :=
  [ "RequestError"; "UnsupportedOperation"; "InvalidParameterValue"; "AccessDeniedException";
    "BadRequestException"; "InvalidAction"; "InvalidKeySigningKeyStatus";
    "KeySigningKeyInParentDSRecord"; "UnsupportedCommandException" ].

(** Every cached client is configured for the region it is stored under,
    with the retry count the sweeper sets. *)
Definition wellKeyed (st : Process) : Prop :=
  forall (region : string) (client : conns.AWSClient),
    cached st region = Some client ->
    conns.Region (conns.Conf client) = region
    /\ conns.MaxRetries (conns.Conf client) = 5%Z.

(** An environment with a profile, a role, its duration and its session
    name. *)
Definition profileAndRole (name : string) : string :=
  if String.eqb name "AWS_PROFILE" then "default"
  else if String.eqb name "TF_AWS_ASSUME_ROLE_ARN" then "arn:aws:iam::123456789012:role/sweeper"
  else if String.eqb name "TF_AWS_ASSUME_ROLE_DURATION" then "900"
  else if String.eqb name "TF_AWS_ASSUME_ROLE_SESSION_NAME" then "sweep"
  else "".

(** The process before anything has made the map. *)
Definition nilCache : Process := {| SweeperClients := None; constructed := [] |}.

(** A cache that holds the client of one region. *)
Definition usWest2Client : conns.AWSClient :=
  {| conns.Conf := usWest2Config; conns.Serial := 0 |}.

Definition warmCache : Process :=
  {| SweeperClients := Some {[ "us-west-2" := usWest2Client ]};
     constructed := [usWest2Client] |}.

(** The states of a worker that asks for [region] while the cache holds
    [client] for it: it has not looked up yet, or it has the client. *)
Definition readsOnly (region : string) (client : conns.AWSClient) (w : Worker) : Prop :=
  w = Ready region \/ w = Done (Some client) None.

(** ** The finders of
    [aws/internal/service/kinesisanalyticsv2/finder/finder.go] *)

Module kinesisanalyticsv2.
Record ApplicationDetail := {
  ApplicationARN : option string;
  ApplicationStatus : option string
}.
Record DescribeApplicationInput := {
  DescribeApplicationInput_ApplicationName : option string
}.
Record DescribeApplicationOutput := {
  DescribeApplicationOutput_ApplicationDetail : option ApplicationDetail
}.

Record SnapshotDetails := {
  SnapshotDetails_SnapshotName : option string;
  SnapshotStatus : option string
}.
Record DescribeApplicationSnapshotInput := {
  DescribeApplicationSnapshotInput_ApplicationName : option string;
  DescribeApplicationSnapshotInput_SnapshotName : option string
}.
Record DescribeApplicationSnapshotOutput := {
  DescribeApplicationSnapshotOutput_SnapshotDetails : option SnapshotDetails
}.

(** Error codes of the AWS SDK. *)
Definition ErrCodeResourceNotFoundException := "ResourceNotFoundException".
Definition ErrCodeInvalidArgumentException := "InvalidArgumentException".
End kinesisanalyticsv2.

Module finder.
(** [&resource.NotFoundError{LastError: err, LastRequest: input}]: the
    message is empty.  The error type keeps the message of a
    [NotFoundError] only; no modelled code reads the other fields. *)
Definition notFoundWithLastError (err : option error) : error := NotFoundError "".

(** [&resource.NotFoundError{Message: "Empty result", LastRequest: input}]. *)
Definition emptyResult : error := NotFoundError "Empty result".

Definition ApplicationDetail
    (DescribeApplication :
       option kinesisanalyticsv2.DescribeApplicationInput ->
       option kinesisanalyticsv2.DescribeApplicationOutput * option error)
    (input : option kinesisanalyticsv2.DescribeApplicationInput)
    : option kinesisanalyticsv2.ApplicationDetail * option error :=
  let '(output, err) := DescribeApplication input in
  if tfawserr.ErrCodeEquals err kinesisanalyticsv2.ErrCodeResourceNotFoundException then
    (None, Some (notFoundWithLastError err))
  else match err with
  | Some _ => (None, err)
  | None =>
      match output with
      | None => (None, Some emptyResult)
      | Some out =>
          match kinesisanalyticsv2.DescribeApplicationOutput_ApplicationDetail out with
          | None => (None, Some emptyResult)
          | Some detail => (Some detail, None)
          end
      end
  end.

Definition ApplicationDetailByName
    (DescribeApplication :
       option kinesisanalyticsv2.DescribeApplicationInput ->
       option kinesisanalyticsv2.DescribeApplicationOutput * option error)
    (name : string) : option kinesisanalyticsv2.ApplicationDetail * option error :=
  let input :=
    Some {| kinesisanalyticsv2.DescribeApplicationInput_ApplicationName := Some name |} in
  ApplicationDetail DescribeApplication input.

Definition SnapshotDetails
    (DescribeApplicationSnapshot :
       option kinesisanalyticsv2.DescribeApplicationSnapshotInput ->
       option kinesisanalyticsv2.DescribeApplicationSnapshotOutput * option error)
    (input : option kinesisanalyticsv2.DescribeApplicationSnapshotInput)
    : option kinesisanalyticsv2.SnapshotDetails * option error :=
  let '(output, err) := DescribeApplicationSnapshot input in
  if tfawserr.ErrCodeEquals err kinesisanalyticsv2.ErrCodeResourceNotFoundException then
    (None, Some (notFoundWithLastError err))
  else if tfawserr.ErrMessageContains err kinesisanalyticsv2.ErrCodeInvalidArgumentException
            "does not exist" then
    (None, Some (notFoundWithLastError err))
  else match err with
  | Some _ => (None, err)
  | None =>
      match output with
      | None => (None, Some emptyResult)
      | Some out =>
          match kinesisanalyticsv2.DescribeApplicationSnapshotOutput_SnapshotDetails out with
          | None => (None, Some emptyResult)
          | Some details => (Some details, None)
          end
      end
  end.

Definition SnapshotDetailsByApplicationAndSnapshotNames
    (DescribeApplicationSnapshot :
       option kinesisanalyticsv2.DescribeApplicationSnapshotInput ->
       option kinesisanalyticsv2.DescribeApplicationSnapshotOutput * option error)
    (applicationName snapshotName : string)
    : option kinesisanalyticsv2.SnapshotDetails * option error :=
  let input :=
    Some {| kinesisanalyticsv2.DescribeApplicationSnapshotInput_ApplicationName :=
              Some applicationName;
            kinesisanalyticsv2.DescribeApplicationSnapshotInput_SnapshotName :=
              Some snapshotName |} in
  SnapshotDetails DescribeApplicationSnapshot input.
End finder.

(** A snapshot call refused because the snapshot does not exist, and one
    refused for another invalid argument. *)
Definition snapshotDoesNotExist
    (input : option kinesisanalyticsv2.DescribeApplicationSnapshotInput)
    : option kinesisanalyticsv2.DescribeApplicationSnapshotOutput * option error :=
  (None, Some (AwsError "InvalidArgumentException" "Snapshot nightly does not exist")).

Definition snapshotNameInvalid
    (input : option kinesisanalyticsv2.DescribeApplicationSnapshotInput)
    : option kinesisanalyticsv2.DescribeApplicationSnapshotOutput * option error :=
  (None, Some (AwsError "InvalidArgumentException" "Snapshot name is too long")).

(** ** Paginated listings

    The two listing loops of the sources ask for a page, use it, and go on
    with the page's [NextToken] until a page has none.  [request] is the
    token field of the input the loop builds: set only when the token
    variable is not empty.  [served] says that the service, asked from the
    given token on, answers with exactly the given pages, the last of which
    has no token. *)
Definition request (nextToken : string) : option string :=
  if String.eqb nextToken "" then None else Some nextToken.

Section Pagination.

Context {Page : Type}.
Variable NextToken : Page -> option string.
Variable list_ : option string -> option Page * option error.

Fixpoint served (nextToken : string) (pages : list Page) : Prop :=
  match pages with
  | [] => False
  | page :: rest =>
      list_ (request nextToken) = (Some page, None)
      /\ match rest with
         | [] => NextToken page = None
         | _ =>
             exists token,
               NextToken page = Some token /\ served (aws.StringValue (Some token)) rest
         end
  end.

End Pagination.

(** ** The CodePipeline webhook resource

    The source file is one of the unnamed parts; its package is
    [codepipeline]. *)

(** A value of a [map[string]interface{}] of the resource data: a string,
    or a value of another type. *)
Inductive iface : Type :=
| IString (s : string)
| IOther.

(** [v.(string)] on the result of a map lookup: a missing key gives the nil
    interface, and the assertion panics on anything but a string. *)
Definition assertString (v : option iface) : exec string :=
  match v with
  | Some (IString s) => Return s
  | _ => Panic
  end.

Module codepipeline.
Record WebhookFilterRule := {
  JsonPath : option string;
  MatchEquals : option string
}.

Record WebhookAuthConfiguration := {
  AllowedIPRange : option string;
  SecretToken : option string
}.

Record ListWebhookItem := {
  Arn : option string;
  Url : option string
}.

Record ListWebhooksOutput := {
  Webhooks : list (option ListWebhookItem);
  NextToken : option string
}.

(** Enumeration values of the AWS SDK. *)
Definition WebhookAuthenticationTypeGithubHmac := "GITHUB_HMAC".
Definition WebhookAuthenticationTypeIp := "IP".
Definition WebhookAuthenticationTypeUnauthenticated := "UNAUTHENTICATED".
End codepipeline.

(** [filters] is the list [filters.List()] of the set. *)
Fixpoint extractCodePipelineWebhookRules (filters : list (gmap string iface))
    : exec (list (option codepipeline.WebhookFilterRule)) :=
  match filters with
  | [] => Return []
  | r :: rest =>
      match assertString (r !! "json_path") with
      | Panic => Panic
      | Return jsonPath =>
          match assertString (r !! "match_equals") with
          | Panic => Panic
          | Return matchEquals =>
              match extractCodePipelineWebhookRules rest with
              | Panic => Panic
              | Return rules =>
                  Return (Some {| codepipeline.JsonPath := Some jsonPath;
                                  codepipeline.MatchEquals := Some matchEquals |} :: rules)
              end
          end
      end
  end.

(** A nil [authConfig] map reads like the empty map. *)
Definition extractCodePipelineWebhookAuthConfig (authType : string)
    (authConfig : gmap string iface) : exec codepipeline.WebhookAuthConfiguration :=
  if String.eqb authType codepipeline.WebhookAuthenticationTypeIp then
    match assertString (authConfig !! "allowed_ip_range") with
    | Panic => Panic
    | Return v =>
        Return {| codepipeline.AllowedIPRange := Some v; codepipeline.SecretToken := None |}
    end
  else if String.eqb authType codepipeline.WebhookAuthenticationTypeGithubHmac then
    match assertString (authConfig !! "secret_token") with
    | Panic => Panic
    | Return v =>
        Return {| codepipeline.AllowedIPRange := None; codepipeline.SecretToken := Some v |}
    end
  else Return {| codepipeline.AllowedIPRange := None; codepipeline.SecretToken := None |}.

Fixpoint flattenCodePipelineWebhookFilters
    (filters : list (option codepipeline.WebhookFilterRule)) : exec (list (gmap string iface)) :=
  match filters with
  | [] => Return []
  | None :: _ => Panic
  | Some filter :: rest =>
      match flattenCodePipelineWebhookFilters rest with
      | Panic => Panic
      | Return results =>
          Return (({[ "json_path" := IString (aws.StringValue (codepipeline.JsonPath filter));
                      "match_equals" :=
                        IString (aws.StringValue (codepipeline.MatchEquals filter)) ]}
                   : gmap string iface)
                  :: results)
      end
  end.

Definition flattenCodePipelineWebhookAuthenticationConfiguration
    (authConfig : option codepipeline.WebhookAuthConfiguration)
    : exec (list (gmap string iface)) :=
  match authConfig with
  | None => Panic
  | Some config =>
      let conf : gmap string iface := ∅ in
      let conf :=
        match codepipeline.AllowedIPRange config with
        | Some _ =>
            <["allowed_ip_range" :=
                IString (aws.StringValue (codepipeline.AllowedIPRange config))]> conf
        | None => conf
        end in
      let conf :=
        match codepipeline.SecretToken config with
        | Some _ =>
            <["secret_token" :=
                IString (aws.StringValue (codepipeline.SecretToken config))]> conf
        | None => conf
        end in
      if (0 <? size conf)%nat then Return [conf] else Return []
  end.

(** The inner loop of [GetWebhook]: the first webhook of a page with the
    ARN.  Reading the ARN of a nil entry panics. *)
Fixpoint scanWebhooks (arn : string) (webhooks : list (option codepipeline.ListWebhookItem))
    : exec (option codepipeline.ListWebhookItem) :=
  match webhooks with
  | [] => Return None
  | None :: _ => Panic
  | Some w :: rest =>
      if String.eqb arn (aws.StringValue (codepipeline.Arn w)) then Return (Some w)
      else scanWebhooks arn rest
  end.

Definition noWebhook (arn : string) : error :=
  NotFoundError ("No webhook with ARN " +:+ arn +:+ " found").

(** The loop of [GetWebhook], from the token [nextToken] on.  Every
    iteration asks for one page, with [MaxResults] 60; [fuel] bounds the
    number of pages asked for, and [None] says that the loop has not ended
    within that bound. *)
Fixpoint getWebhookFrom (fuel : nat)
    (ListWebhooks : option string -> option codepipeline.ListWebhooksOutput * option error)
    (arn : string) (nextToken : string)
    : option (exec (option codepipeline.ListWebhookItem * option error)) :=
  match fuel with
  | O => None
  | S fuel' =>
      let '(out, err) := ListWebhooks (request nextToken) in
      match err with
      | Some _ => Some (Return (None, err))
      | None =>
          match out with
          | None => Some Panic
          | Some o =>
              match scanWebhooks arn (codepipeline.Webhooks o) with
              | Panic => Some Panic
              | Return (Some w) => Some (Return (Some w, None))
              | Return None =>
                  match codepipeline.NextToken o with
                  | None => Some (Return (None, Some (noWebhook arn)))
                  | Some _ =>
                      getWebhookFrom fuel' ListWebhooks arn
                        (aws.StringValue (codepipeline.NextToken o))
                  end
              end
          end
      end
  end.

Definition GetWebhook (fuel : nat)
    (ListWebhooks : option string -> option codepipeline.ListWebhooksOutput * option error)
    (arn : string) : option (exec (option codepipeline.ListWebhookItem * option error)) :=
  getWebhookFrom fuel ListWebhooks arn "".

(** What [GetWebhook] returns when the listing ends: the first webhook with
    the ARN among all webhooks listed, or the not-found error. *)
Definition webhookAmong (arn : string) (webhooks : list (option codepipeline.ListWebhookItem))
    : exec (option codepipeline.ListWebhookItem * option error) :=
  match scanWebhooks arn webhooks with
  | Panic => Panic
  | Return (Some w) => Return (Some w, None)
  | Return None => Return (None, Some (noWebhook arn))
  end.

(** *** Concrete inputs *)

Definition hookFilter : gmap string iface :=
  {[ "json_path" := IString "$.ref"; "match_equals" := IString "refs/heads/main" ]}.

Definition ipConfig : gmap string iface :=
  {[ "allowed_ip_range" := IString "10.0.0.0/8"; "secret_token" := IString "unused" ]}.

Definition webhookA : codepipeline.ListWebhookItem :=
  {| codepipeline.Arn := Some "arn:aws:codepipeline:us-west-2:123456789012:webhook:a";
     codepipeline.Url := Some "https://example.test/a" |}.

Definition webhookB : codepipeline.ListWebhookItem :=
  {| codepipeline.Arn := Some "arn:aws:codepipeline:us-west-2:123456789012:webhook:b";
     codepipeline.Url := Some "https://example.test/b" |}.

(** A listing in two pages: the first holds [webhookA] and the token
    [page2], the second holds [webhookB]. *)
Definition twoPages (token : option string)
    : option codepipeline.ListWebhooksOutput * option error :=
  match token with
  | None =>
      (Some {| codepipeline.Webhooks := [Some webhookA];
               codepipeline.NextToken := Some "page2" |}, None)
  | Some _ =>
      (Some {| codepipeline.Webhooks := [Some webhookB];
               codepipeline.NextToken := None |}, None)
  end.

(** A listing whose only page carries an empty token. *)
Definition emptyTokenPage (token : option string)
    : option codepipeline.ListWebhooksOutput * option error :=
  (Some {| codepipeline.Webhooks := [Some webhookA]; codepipeline.NextToken := Some "" |},
   None).

(** ** The Cognito user pools data source

    The source file is one of the unnamed parts; its package is
    [cognitoidp]. *)

Module cognitoidentityprovider.
Record UserPoolDescriptionType := {
  Id : option string;
  Name : option string
}.

Record ListUserPoolsOutput := {
  UserPools : list (option UserPoolDescriptionType);
  NextToken : option string
}.
End cognitoidentityprovider.

Module arn.
Record ARN := {
  Partition : string;
  Service : string;
  Region : string;
  AccountID : string;
  Resource : string
}.

(** [ARN.String()] of the AWS SDK. *)
Definition String_ (a : ARN) : string :=
  "arn:" +:+ Partition a +:+ ":" +:+ Service a +:+ ":" +:+ Region a +:+ ":"
  +:+ AccountID a +:+ ":" +:+ Resource a.
End arn.

(** The fields of the client behind [meta] that the data source reads. *)
Record ClientIdentity := {
  client_Partition : string;
  client_Region : string;
  client_AccountID : string
}.

(** What the data source writes into its resource data: the id, and the
    lists handed to [d.Set] for [ids] and [arns]. *)
Record UserPoolsData := {
  data_Id : string;
  data_ids : list string;
  data_arns : list string
}.

(** The loop of [getAllCognitoUserPools], from the token [nextToken] on,
    with the pools gathered so far.  [fuel] bounds the number of pages asked
    for; [None] says that the loop has not ended within that bound. *)
Fixpoint getAllCognitoUserPoolsFrom (fuel : nat)
    (ListUserPools :
       option string -> option cognitoidentityprovider.ListUserPoolsOutput * option error)
    (pools : list (option cognitoidentityprovider.UserPoolDescriptionType))
    (nextToken : string)
    : option (exec (list (option cognitoidentityprovider.UserPoolDescriptionType)
                    * option error)) :=
  match fuel with
  | O => None
  | S fuel' =>
      let '(out, err) := ListUserPools (request nextToken) in
      match err with
      | Some _ => Some (Return (pools, err))
      | None =>
          match out with
          | None => Some Panic
          | Some o =>
              let pools := (pools ++ cognitoidentityprovider.UserPools o)%list in
              match cognitoidentityprovider.NextToken o with
              | None => Some (Return (pools, None))
              | Some _ =>
                  getAllCognitoUserPoolsFrom fuel' ListUserPools pools
                    (aws.StringValue (cognitoidentityprovider.NextToken o))
              end
          end
      end
  end.

Definition getAllCognitoUserPools (fuel : nat)
    (ListUserPools :
       option string -> option cognitoidentityprovider.ListUserPoolsOutput * option error)
    : option (exec (list (option cognitoidentityprovider.UserPoolDescriptionType)
                    * option error)) :=
  getAllCognitoUserPoolsFrom fuel ListUserPools [] "".

(** The ARN the data source builds for a pool id. *)
Definition userPoolARN (client : ClientIdentity) (id : string) : string :=
  arn.String_ {| arn.Partition := client_Partition client;
                 arn.Service := "cognito-idp";
                 arn.Region := client_Region client;
                 arn.AccountID := client_AccountID client;
                 arn.Resource := "userpool/" +:+ id |}.

(** The loop over the pools in [dataSourceUserPoolsRead]: the ids and the
    ARNs of the pools with the name.  Reading the name of a nil entry
    panics. *)
Fixpoint poolsNamed (client : ClientIdentity) (name : string)
    (pools : list (option cognitoidentityprovider.UserPoolDescriptionType))
    : exec (list string * list string) :=
  match pools with
  | [] => Return ([], [])
  | None :: _ => Panic
  | Some pool :: rest =>
      match poolsNamed client name rest with
      | Panic => Panic
      | Return (ids, arns) =>
          if String.eqb name (aws.StringValue (cognitoidentityprovider.Name pool)) then
            let id := aws.StringValue (cognitoidentityprovider.Id pool) in
            Return (id :: ids, userPoolARN client id :: arns)
          else Return (ids, arns)
      end
  end.

Definition dataSourceUserPoolsRead (fuel : nat)
    (ListUserPools :
       option string -> option cognitoidentityprovider.ListUserPoolsOutput * option error)
    (client : ClientIdentity) (name : string) (d : UserPoolsData)
    : option (exec (option error * UserPoolsData)) :=
  match getAllCognitoUserPools fuel ListUserPools with
  | None => None
  | Some Panic => Some Panic
  | Some (Return (_, Some e)) =>
      Some (Return (Some (WrapError "Error listing cognito user pools: " e), d))
  | Some (Return (pools, None)) =>
      match poolsNamed client name pools with
      | Panic => Some Panic
      | Return (ids, arns) =>
          if (length ids =? 0)%nat then
            Some (Return (Some (ErrorString ("No cognito user pool found with name: " +:+ name)),
                          d))
          else
            Some (Return (None, {| data_Id := name; data_ids := ids; data_arns := arns |}))
      end
  end.

(** The id of a listed pool if the pool has the name. *)
Definition idIfNamed (name : string)
    (pool : option cognitoidentityprovider.UserPoolDescriptionType) : option string :=
  match pool with
  | Some p =>
      if String.eqb name (aws.StringValue (cognitoidentityprovider.Name p))
      then Some (aws.StringValue (cognitoidentityprovider.Id p))
      else None
  | None => None
  end.

(** *** Concrete inputs *)

Definition poolNamed (id name : string) : option cognitoidentityprovider.UserPoolDescriptionType :=
  Some {| cognitoidentityprovider.Id := Some id; cognitoidentityprovider.Name := Some name |}.

(** A listing of user pools in two pages. *)
Definition twoPoolPages (token : option string)
    : option cognitoidentityprovider.ListUserPoolsOutput * option error :=
  match token with
  | None =>
      (Some {| cognitoidentityprovider.UserPools :=
                 [poolNamed "us-west-2_aaa" "staff"; poolNamed "us-west-2_bbb" "guests"];
               cognitoidentityprovider.NextToken := Some "page2" |}, None)
  | Some _ =>
      (Some {| cognitoidentityprovider.UserPools := [poolNamed "us-west-2_ccc" "staff"];
               cognitoidentityprovider.NextToken := None |}, None)
  end.

Definition sweeperIdentity : ClientIdentity :=
  {| client_Partition := "aws"; client_Region := "us-west-2";
     client_AccountID := "123456789012" |}.

Definition noData : UserPoolsData := {| data_Id := ""; data_ids := []; data_arns := [] |}.

(** * Properties *)

(** ** The status reducers *)

(** The head constant of an application. *)
Ltac head_of t :=
  lazymatch t with
  | ?f _ => head_of f
  | _ => t
  end.

(** Unfold the reducer that is called on the left of the goal, or of the
    hypothesis [H]. *)
Ltac unfold_reducer :=
  lazymatch goal with
  | |- ?lhs = _ => let h := head_of lhs in unfold h
  end.

Ltac unfold_reducer_in H :=
  lazymatch type of H with
  | ?lhs = _ => let h := head_of lhs in unfold h in H
  end.

(** Name the answer of the describe call. *)
Ltac describe_answer :=
  match goal with
  | |- context [snd ?x] => destruct x as [? ?]; cbn [fst snd] in *
  | |- context [fst ?x] => destruct x as [? ?]; cbn [fst snd] in *
  | H : context [snd ?x] |- _ => destruct x as [? ?]; cbn [fst snd] in *
  | H : context [fst ?x] |- _ => destruct x as [? ?]; cbn [fst snd] in *
  end.

Section ReducerProperties.

Variable tf : tfec2.Constants.
Variable arnToName : string -> string * option error.

(** C1, as amended.  When the describe call fails with the not-found error
    class of the reducer's resource type, the reducer returns a nil
    payload, a nil error and its not-found status: the literal [NotFound]
    where the resource declares that constant, ["false"] for the two
    subnet attribute reducers, the empty string for the others. *)
Theorem not_found_class_outcome (p : Poll) :
  notFoundClass tf p (describeError p) = true ->
  refresh tf arnToName p = Return (None, notFoundStatus p, None).
Proof.
  destruct p; cbn [refresh describeError notFoundClass]; unfold notFoundStatus;
    cbn [notFoundValue blankStatus]; intros H; try discriminate;
    unfold_reducer; try describe_answer; rewrite H; reflexivity.
Qed.

(** C2, as amended.  When the describe call fails with an error outside
    the not-found class, the reducer returns a nil payload, that same
    error, and its error status: the literal [Unknown] where the resource
    declares that constant, ["false"] for the two subnet attribute
    reducers, the empty string for the others. *)
Theorem other_error_outcome (p : Poll) (e : error) :
  describeError p = Some e ->
  notFoundClass tf p (Some e) = false ->
  refresh tf arnToName p = Return (None, errorStatus p, Some e).
Proof.
  destruct p; cbn [refresh describeError notFoundClass]; unfold errorStatus;
    cbn [unknownValue blankStatus]; intros H1 H2;
    unfold_reducer; try describe_answer; try subst; try rewrite H1; try rewrite H2;
    reflexivity.
Qed.

(** C3.  A peering connection whose describe call succeeds with status
    code [deleted], [expired] or [rejected] is reported as
    (nil, NotFound, nil). *)
Theorem peering_terminal_code_is_not_found
    (find : string -> option ec2.VpcPeeringConnection * option error)
    (id : string) (pc : ec2.VpcPeeringConnection)
    (status : ec2.VpcPeeringConnectionStateReason) (code : string) :
  find id = (Some pc, None) ->
  ec2.VpcPeeringConnection_Status pc = Some status ->
  ec2.VpcPeeringConnectionStateReason_Code status = Some code ->
  code = "deleted" \/ code = "expired" \/ code = "rejected" ->
  StatusVPCPeeringConnection tf find id = Return (None, "NotFound", None).
Proof.
  intros Hfind Hstatus Hcode Hterminal.
  unfold StatusVPCPeeringConnection.
  rewrite Hfind. cbn [tfawserr.ErrCodeEquals]. rewrite Hstatus, Hcode.
  cbn [aws.StringValue].
  destruct Hterminal as [-> | [-> | ->]]; reflexivity.
Qed.

(** The carrier gateway reducer normalises its own terminal state in the
    same way. *)
Lemma carrier_gateway_deleted_is_not_found
    (find : string -> option ec2.CarrierGateway * option error)
    (id : string) (cg : ec2.CarrierGateway) :
  find id = (Some cg, None) ->
  ec2.CarrierGateway_State cg = Some "deleted" ->
  StatusCarrierGatewayState tf find id = Return (None, "NotFound", None).
Proof.
  intros Hfind Hstate. unfold StatusCarrierGatewayState.
  rewrite Hfind. cbn [tfawserr.ErrCodeEquals]. rewrite Hstate. reflexivity.
Qed.


(** Where [StatusEBSSnapshotImport] does return: on every response except
    one whose first import task is non-nil and has a nil detail. *)
Lemma snapshot_import_returns
    (describe : list string -> option ec2.DescribeImportSnapshotTasksOutput * option error)
    (id : string) :
  (forall r task rest,
      describe [id] = (Some r, None) ->
      ec2.ImportSnapshotTasks r = Some task :: rest ->
      ec2.ImportSnapshotTask_SnapshotTaskDetail task <> None) ->
  exists outcome, StatusEBSSnapshotImport tf describe id = Return outcome.
Proof.
  intros Hdetail. unfold StatusEBSSnapshotImport.
  destruct (describe [id]) as [resp err] eqn:Hd.
  destruct err as [e|]; [eauto|].
  destruct resp as [r|]; [|eauto].
  destruct (ec2.ImportSnapshotTasks r) as [|[task|] rest] eqn:Htasks; [eauto| |eauto].
  specialize (Hdetail r task rest eq_refl Htasks).
  destruct (ec2.ImportSnapshotTask_SnapshotTaskDetail task); [eauto|congruence].
Qed.

End ReducerProperties.

(** Counterexample to C1 as stated.  On a route table that is gone,
    [StatusRouteTable] returns the empty status, not [NotFound]. *)
Lemma route_table_gone_has_empty_status :
  notFoundClass providerConstants routeTableGone (describeError routeTableGone) = true
  /\ refresh providerConstants lastSegment routeTableGone = Return (None, "", None)
  /\ refresh providerConstants lastSegment routeTableGone <> Return (None, "NotFound", None).
Proof. split; [reflexivity | split; [reflexivity | discriminate]]. Qed.

(** Witness for C1: a carrier gateway that is gone. *)
Lemma not_found_class_outcome_witness :
  refresh providerConstants lastSegment carrierGatewayGone = Return (None, "NotFound", None).
Proof.
  apply (not_found_class_outcome providerConstants lastSegment carrierGatewayGone).
  reflexivity.
Defined.

(** Counterexample to C2 as stated.  On a refused describe call,
    [StatusRouteTable] returns the empty status, not [Unknown]. *)
Lemma route_table_refused_has_empty_status :
  describeError routeTableRefused = Some (AwsError "UnauthorizedOperation" "not authorized")
  /\ notFoundClass providerConstants routeTableRefused (describeError routeTableRefused) = false
  /\ refresh providerConstants lastSegment routeTableRefused
     = Return (None, "", Some (AwsError "UnauthorizedOperation" "not authorized"))
  /\ refresh providerConstants lastSegment routeTableRefused
     <> Return (None, "Unknown", Some (AwsError "UnauthorizedOperation" "not authorized")).
Proof. split; [reflexivity | split; [reflexivity | split; [reflexivity | discriminate]]]. Qed.

(** Witness for C2: a carrier gateway whose describe call is refused. *)
Lemma other_error_outcome_witness :
  refresh providerConstants lastSegment carrierGatewayRefused
  = Return (None, "Unknown", Some (AwsError "UnauthorizedOperation" "not authorized")).
Proof.
  apply (other_error_outcome providerConstants lastSegment carrierGatewayRefused);
    reflexivity.
Defined.

(** Witness for C3: a peering connection that reports [deleted]. *)
Lemma peering_terminal_code_is_not_found_witness :
  StatusVPCPeeringConnection providerConstants peeringDeleted "pcx-0123"
  = Return (None, "NotFound", None).
Proof.
  eapply (peering_terminal_code_is_not_found providerConstants peeringDeleted "pcx-0123");
    [reflexivity | reflexivity | reflexivity | left; reflexivity].
Defined.



(** C10 fails on the code.  On a response whose first import task is non-nil
    with a nil [SnapshotTaskDetail], the closure dereferences the nil detail
    and panics instead of returning a triple. *)
Theorem snapshot_import_nil_detail_panics :
  StatusEBSSnapshotImport providerConstants taskWithoutDetail "import-snap-0123" = Panic.
Proof. reflexivity. Qed.

(** ** The sweep orchestrator *)

Section SweepProperties.

Variable Meta : Type.
Implicit Types (sr : SweepResource Meta) (polls attempts : nat).

Lemma classify_throttled (e : error) :
  strings.Contains (Error e) "Throttling" = true ->
  classify (Some e) = Some (resource.RetryableError e).
Proof. intros H. unfold classify. rewrite H. reflexivity. Qed.


(** One poll of the driver on the retried closure. *)
Lemma drive_poll sr polls attempts :
  tfresource.drive (S polls) (retried sr) attempts
  = match tfresource.transition (classify (attempt sr attempts)) with
    | tfresource.Pending => tfresource.drive polls (retried sr) (S attempts)
    | st => (st, S attempts)
    end.
Proof. reflexivity. Qed.

(** A throttled attempt leaves the driver pending: the next poll follows. *)
Lemma drive_throttled sr polls attempts :
  throttled (attempt sr attempts) = true ->
  tfresource.drive (S polls) (retried sr) attempts
  = tfresource.drive polls (retried sr) (S attempts).
Proof.
  unfold throttled. intros H. rewrite drive_poll.
  destruct (attempt sr attempts) as [e|]; [|discriminate].
  rewrite (classify_throttled e H). reflexivity.
Qed.

(** While every attempt is throttled the driver polls until the deadline. *)
Lemma drive_all_throttled sr polls attempts :
  (forall k, k < polls -> throttled (attempt sr (attempts + k)) = true) ->
  tfresource.drive polls (retried sr) attempts = (tfresource.Timeout, attempts + polls).
Proof.
  revert attempts. induction polls as [|n IH]; intros attempts H.
  - cbn. f_equal. lia.
  - rewrite drive_throttled.
    + rewrite IH.
      * f_equal. lia.
      * intros k Hk. replace (S attempts + k) with (attempts + S k) by lia.
        apply H. lia.
    + replace attempts with (attempts + 0) at 1 by lia. apply H. lia.
Qed.



(** The driver stops at the deadline only in [Timeout]. *)
Lemma drive_never_pending sr polls attempts :
  fst (tfresource.drive polls (retried sr) attempts) <> tfresource.Pending.
Proof.
  revert attempts. induction polls as [|n IH]; intros attempts.
  - cbn. discriminate.
  - rewrite drive_poll.
    destruct (tfresource.transition _) eqn:Ht; cbn [fst]; try discriminate.
    apply IH.
Qed.




(** C8.  When the deadline passes while the delete is still being
    throttled, the loop ends with a timeout error and the goroutine makes
    exactly one more delete attempt, outside the loop, whose result is the
    item's result.  When the loop ends without a timeout error, in success
    or in failure, no further attempt is made. *)
Theorem timeout_gets_one_more_delete sr polls :
  ((forall k, k < polls -> throttled (attempt sr k) = true) ->
     tfresource.RetryConfigContext polls (retried sr) 0
     = (Some (TimeoutError tfresource.timeoutMessage), polls)
     /\ sweepOne polls sr = (attempt sr polls, S polls))
  /\ (tfresource.TimedOut (fst (tfresource.RetryConfigContext polls (retried sr) 0)) = false ->
     sweepOne polls sr = tfresource.RetryConfigContext polls (retried sr) 0).
Proof.
  split.
  - intros H.
    assert (Hloop : tfresource.RetryConfigContext polls (retried sr) 0
                    = (Some (TimeoutError tfresource.timeoutMessage), polls)).
    { unfold tfresource.RetryConfigContext.
      rewrite (drive_all_throttled sr polls 0 H). reflexivity. }
    split; [exact Hloop|].
    unfold sweepOne. rewrite Hloop. reflexivity.
  - unfold sweepOne.
    destruct (tfresource.RetryConfigContext polls (retried sr) 0) as [err n].
    cbn [fst]. intros ->. reflexivity.
Qed.







End SweepProperties.

(** Throttled on the first two polls and deleted on the third: the driver
    does not fail early and the item ends without error after three
    attempts. *)
Example throttled_twice_then_deleted :
  sweepOne 5 (throttledFor 2 "sg-3") = (None, 3).
Proof. reflexivity. Qed.

(** The test is the case-sensitive text [Throttling] in [err.Error()]: the
    rate-limit error of EC2 that does not carry that text is not retried. *)
Example request_limit_not_retried :
  classify (Some (AwsError "RequestLimitExceeded" "Request limit exceeded."))
  = Some (resource.NonRetryableError
            (AwsError "RequestLimitExceeded" "Request limit exceeded.")).
Proof. reflexivity. Qed.



(** Witness for C8: a resource throttled up to the deadline of three polls
    and one deleted at once. *)
Lemma timeout_gets_one_more_delete_witness :
  sweepOne 3 (alwaysThrottled "sg-1") = (Some throttlingError, 4)
  /\ sweepOne 3 (deletedAtOnce "sg-2") = (None, 1).
Proof.
  split.
  - apply (timeout_gets_one_more_delete unit (alwaysThrottled "sg-1") 3).
    intros k _. reflexivity.
  - apply (timeout_gets_one_more_delete unit (deletedAtOnce "sg-2") 3). reflexivity.
Defined.

(** ** The skip table *)

Lemma SkipSweepError_by_table (err : option error) :
  SkipSweepError err = skipByTable err.
Proof.
  unfold SkipSweepError, skipByTable, skipTable.
  cbn [firstMatch]. unfold matchesEntry. cbn [fst snd].
  repeat match goal with
         | |- context [tfawserr.ErrMessageContains err ?code ?message] =>
             destruct (tfawserr.ErrMessageContains err code message)
         end; reflexivity.
Qed.

(** [firstMatch] returns the matching entry of least position. *)
Lemma firstMatch_least (err : option error) (table : list (string * string)) :
  forall (pos k : nat) (entry : string * string),
    firstMatch err table pos = Some (k, entry) ->
    exists i, k = pos + i
              /\ table !! i = Some entry
              /\ matchesEntry err entry = true
              /\ forall j other, j < i -> table !! j = Some other ->
                                 matchesEntry err other = false.
Proof.
  induction table as [|first rest IH]; intros pos k entry; cbn [firstMatch].
  - discriminate.
  - destruct (matchesEntry err first) eqn:Hfirst.
    + intros [= <- <-]. exists 0. repeat split; [lia | assumption | intros; lia].
    + intros H. destruct (IH _ _ _ H) as (i & -> & Hi & Hm & Hleast).
      exists (S i). repeat split; [lia | assumption | assumption |].
      intros [|j] other Hj Hother; cbn in Hother.
      * congruence.
      * apply (Hleast j); [lia | assumption].
Qed.

(** Some entry matches exactly when [firstMatch] finds one. *)
Lemma firstMatch_none (err : option error) (table : list (string * string)) (pos : nat) :
  firstMatch err table pos = None
  <-> forall entry, In entry table -> matchesEntry err entry = false.
Proof.
  revert pos. induction table as [|first rest IH]; intros pos; cbn [firstMatch In].
  - split; [intros _ ? [] | reflexivity].
  - destruct (matchesEntry err first) eqn:Hfirst.
    + split; [discriminate|]. intros H. rewrite (H first) in Hfirst by now left.
      discriminate.
    + rewrite IH. split.
      * intros H entry [<- | Hin]; [assumption | now apply H].
      * intros H entry Hin. apply H. now right.
Qed.

(** A match at position [i] bounds the position [firstMatch] returns. *)
Lemma firstMatch_before (err : option error) (table : list (string * string)) :
  forall (pos i : nat) (entry : string * string),
    table !! i = Some entry ->
    matchesEntry err entry = true ->
    exists k found, firstMatch err table pos = Some (pos + k, found) /\ k <= i.
Proof.
  induction table as [|first rest IH]; intros pos i entry Hi Hm.
  - discriminate.
  - cbn [firstMatch]. destruct (matchesEntry err first) eqn:Hfirst.
    + exists 0, first. split; [f_equal; f_equal; lia | lia].
    + destruct i as [|i]; cbn in Hi.
      * congruence.
      * destruct (IH (S pos) i entry Hi Hm) as (k & found & Hk & Hle).
        exists (S k), found. split; [rewrite Hk; f_equal; f_equal; lia | lia].
Qed.

(** C7.  [SkipSweepError] is the fixed ordered table [skipTable]: it returns
    true exactly when the error matches some entry, the decision is that of
    the first matching entry in the declared order, and an error matching no
    entry is not skipped.  When an error matches two entries the entry
    found is at or before the earlier of the two, and no entry before it
    matches. *)
Theorem skip_table_first_match_wins (err : option error) :
  SkipSweepError err = skipByTable err
  /\ (SkipSweepError err = true
      <-> exists entry, In entry skipTable /\ matchesEntry err entry = true)
  /\ ((forall entry, In entry skipTable -> matchesEntry err entry = false) ->
      SkipSweepError err = false)
  /\ (forall i j ei ej,
        i < j ->
        skipTable !! i = Some ei -> matchesEntry err ei = true ->
        skipTable !! j = Some ej -> matchesEntry err ej = true ->
        exists k ek,
          firstMatch err skipTable 0 = Some (k, ek)
          /\ k <= i
          /\ skipTable !! k = Some ek
          /\ matchesEntry err ek = true
          /\ (forall l el, l < k -> skipTable !! l = Some el -> matchesEntry err el = false)
          /\ SkipSweepError err = true).
Proof.
  split; [apply SkipSweepError_by_table|]. split; [|split].
  - rewrite SkipSweepError_by_table. unfold skipByTable.
    destruct (firstMatch err skipTable 0) as [[k entry]|] eqn:Hfm.
    + split; [intros _ | reflexivity].
      destruct (firstMatch_least _ _ _ _ _ Hfm) as (i & _ & Hi & Hm & _).
      exists entry. split; [|assumption].
      apply list_elem_of_In. eapply list_elem_of_lookup_2. exact Hi.
    + split; [discriminate|]. intros (entry & Hin & Hm).
      rewrite (proj1 (firstMatch_none err skipTable 0) Hfm entry Hin) in Hm. discriminate.
  - intros Hnone. rewrite SkipSweepError_by_table. unfold skipByTable.
    rewrite (proj2 (firstMatch_none err skipTable 0) Hnone). reflexivity.
  - intros i j ei ej _ Hi Hmi _ _.
    destruct (firstMatch_before err skipTable 0 i ei Hi Hmi) as (k & ek & Hfm & Hle).
    cbn [Nat.add] in Hfm.
    destruct (firstMatch_least _ _ _ _ _ Hfm) as (k' & Hk' & Hk & Hm & Hleast).
    cbn [Nat.add] in Hk'. subst k'.
    exists k, ek. repeat split; try assumption.
    rewrite SkipSweepError_by_table. unfold skipByTable. rewrite Hfm. reflexivity.
Qed.

(** Witness for C7: an [InvalidAction] error that matches the seventh and
    the eighth entry; the seventh decides. *)
Lemma skip_table_first_match_wins_witness :
  exists k ek,
    firstMatch invalidActionTwice skipTable 0 = Some (k, ek)
    /\ k <= 6
    /\ skipTable !! k = Some ek
    /\ matchesEntry invalidActionTwice ek = true
    /\ (forall l el, l < k -> skipTable !! l = Some el ->
                     matchesEntry invalidActionTwice el = false)
    /\ SkipSweepError invalidActionTwice = true.
Proof.
  destruct (skip_table_first_match_wins invalidActionTwice) as (_ & _ & _ & Htwo).
  apply (Htwo 6 7 ("InvalidAction", "is not valid") ("InvalidAction", "Unavailable Operation"));
    [lia | reflexivity | reflexivity | reflexivity | reflexivity].
Defined.

Example invalidActionTwice_first_match :
  firstMatch invalidActionTwice skipTable 0 = Some (6, ("InvalidAction", "is not valid")).
Proof. reflexivity. Qed.

(** ** The regional client cache *)

Section CacheProperties.

Variable names : conns.EnvVarNames.
Variable getenv : string -> string.
Variable dial : conns.Config -> nat -> option error.

(** The configuration is for the requested region. *)
Lemma configure_region (region : string) (conf : conns.Config) :
  configure names getenv region = inl conf -> conns.Region conf = region.
Proof.
  unfold configure.
  destruct (conns.RequireOneOfEnvVar _ _ _) as [[? ?] [e|]]; [discriminate|].
  destruct (if negb _ then _ else _); [discriminate|].
  destruct (String.eqb _ ""); [intros [= <-]; reflexivity|].
  destruct (snd _); [discriminate|]. intros [= <-]. reflexivity.
Qed.

(** A hit returns the stored client and changes nothing. *)
Lemma cache_hit (region : string) (st : Process) (c : conns.AWSClient) :
  cached st region = Some c ->
  SharedRegionalSweepClient names getenv dial region st = Return (Some c, None, st).
Proof. intros H. unfold SharedRegionalSweepClient. rewrite H. reflexivity. Qed.

(** What a call that misses does: it returns an error and stores nothing,
    or it constructs one client, for the requested region, and stores it
    under that region. *)
Lemma cache_miss (region : string) (st st1 : Process)
    (res : option conns.AWSClient) (err : option error) :
  cached st region = None ->
  SharedRegionalSweepClient names getenv dial region st = Return (res, err, st1) ->
  (res = None /\ err <> None /\ st1 = st)
  \/ (exists c clients,
        res = Some c /\ err = None
        /\ conns.Region (conns.Conf c) = region
        /\ SweeperClients st = Some clients
        /\ SweeperClients st1 = Some (<[region := c]> clients)
        /\ constructed st1 = (constructed st ++ [c])%list).
Proof.
  intros Hmiss. unfold SharedRegionalSweepClient. rewrite Hmiss.
  destruct (configure names getenv region) as [conf|e] eqn:Hconf.
  - unfold Client. destruct (dial conf (length (constructed st))) as [e|].
    + intros [= <- <- <-]. left. repeat split. discriminate.
    + unfold store. cbn [SweeperClients constructed].
      destruct (SweeperClients st) as [clients|] eqn:Hmap; [|discriminate].
      intros [= <- <- <-]. right. eexists _, clients.
      repeat split; cbn; try reflexivity. now apply configure_region.
  - intros [= <- <- <-]. left. repeat split. discriminate.
Qed.

(** With the map made, a call does not panic and leaves the map made. *)
Lemma call_returns (region : string) (st : Process) :
  SweeperClients st <> None ->
  exists res err st1,
    SharedRegionalSweepClient names getenv dial region st = Return (res, err, st1)
    /\ SweeperClients st1 <> None.
Proof.
  intros Hmap. unfold SharedRegionalSweepClient.
  destruct (cached st region); [eauto 6|].
  destruct (configure names getenv region); [|eauto 6].
  unfold Client. destruct (dial _ _); [eauto 6|].
  unfold store. cbn [SweeperClients constructed].
  destruct (SweeperClients st); [|congruence].
  do 3 eexists. split; [reflexivity|]. cbn. discriminate.
Qed.

(** A call for any region keeps the entry of [region] and constructs
    nothing more for [region] while that entry is there. *)
Lemma call_keeps_entry (region other : string) (st st1 : Process)
    (c : conns.AWSClient) (res : option conns.AWSClient) (err : option error) :
  cached st region = Some c ->
  SharedRegionalSweepClient names getenv dial other st = Return (res, err, st1) ->
  cached st1 region = Some c
  /\ constructedFor region st1 = constructedFor region st.
Proof.
  intros Hentry Hcall.
  destruct (cached st other) as [c'|] eqn:Hother.
  - rewrite (cache_hit other st c' Hother) in Hcall.
    injection Hcall as <- <- <-. split; [assumption | reflexivity].
  - destruct (cache_miss other st st1 res err Hother Hcall)
      as [(_ & _ & ->) | (c' & clients & _ & _ & Hreg & Hmap & Hmap1 & Hlog)].
    + split; [assumption | reflexivity].
    + assert (Hne : other <> region).
      { intros ->. congruence. }
      split.
      * unfold cached in *. rewrite Hmap1. rewrite Hmap in Hentry.
        rewrite lookup_insert_ne by assumption. assumption.
      * unfold constructedFor. rewrite Hlog, filter_app.
        rewrite (filter_cons_False _ c') by (rewrite Hreg; assumption).
        rewrite filter_nil. apply app_nil_r.
Qed.

(** The same over a sequence of calls, none of which panics. *)
Lemma calls_keep_entry (region : string) (c : conns.AWSClient) (others : list string) :
  forall st,
    cached st region = Some c ->
    exists st2,
      calls names getenv dial others st = Return st2
      /\ cached st2 region = Some c
      /\ constructedFor region st2 = constructedFor region st.
Proof.
  induction others as [|other rest IH]; intros st Hentry; cbn [calls].
  - exists st. repeat split; assumption.
  - assert (Hmap : SweeperClients st <> None).
    { unfold cached in Hentry. destruct (SweeperClients st); [discriminate|congruence]. }
    destruct (call_returns other st Hmap) as (res & err & st1 & Hcall & _).
    rewrite Hcall.
    destruct (call_keeps_entry region other st st1 c res err Hentry Hcall) as [H1 H2].
    destruct (IH st1 H1) as (st2 & Hrest & H3 & H4).
    exists st2. repeat split; [assumption | assumption | congruence].
Qed.

(** C9, as amended.  For calls made one after the other: a call that
    misses the cache and succeeds constructs exactly one client, for its
    region, and stores it; after that, whatever other calls are made in
    between, every call for the same region returns that same client,
    changes nothing and constructs nothing. *)
Theorem client_constructed_once_when_sequential
    (region : string) (st st1 : Process) (c : conns.AWSClient) :
  cached st region = None ->
  SharedRegionalSweepClient names getenv dial region st = Return (Some c, None, st1) ->
  constructed st1 = (constructed st ++ [c])%list
  /\ conns.Region (conns.Conf c) = region
  /\ cached st1 region = Some c
  /\ forall others,
       exists st2,
         calls names getenv dial others st1 = Return st2
         /\ SharedRegionalSweepClient names getenv dial region st2 = Return (Some c, None, st2)
         /\ constructedFor region st2 = constructedFor region st1.
Proof.
  intros Hmiss Hcall.
  destruct (cache_miss region st st1 _ _ Hmiss Hcall)
    as [(Hres & _) | (c' & clients & [= <-] & _ & Hreg & Hmap & Hmap1 & Hlog)];
    [discriminate|].
  assert (Hentry : cached st1 region = Some c).
  { unfold cached. rewrite Hmap1. apply lookup_insert_eq. }
  repeat split; try assumption.
  intros others.
  destruct (calls_keep_entry region c others st1 Hentry) as (st2 & Hcalls & H2 & H3).
  exists st2. repeat split; [assumption | now apply cache_hit | assumption].
Qed.

Lemma stepAt_single (w : Worker) (st : Process) :
  stepAt names getenv dial 0 ([w], st)
  = ([fst (workerStep names getenv dial w st)], snd (workerStep names getenv dial w st)).
Proof.
  unfold stepAt. cbn [fst snd lookup list_lookup].
  destruct (workerStep names getenv dial w st). reflexivity.
Qed.

(** One worker that runs alone does what the function does. *)
Lemma worker_alone (region : string) (st : Process) :
  match SharedRegionalSweepClient names getenv dial region st with
  | Return (res, err, st1) => alone names getenv dial region st = ([Done res err], st1)
  | Panic => fst (alone names getenv dial region st) = [Crashed]
  end.
Proof.
  unfold alone, run, SharedRegionalSweepClient. cbn [fold_left].
  rewrite stepAt_single. cbn [workerStep].
  destruct (cached st region) as [c|]; cbn [fst snd].
  { rewrite !stepAt_single. reflexivity. }
  rewrite stepAt_single. cbn [workerStep].
  destruct (configure names getenv region) as [conf|e]; cbn [fst snd].
  2: { rewrite stepAt_single. reflexivity. }
  destruct (Client dial conf st) as [[client|e] st1]; cbn [fst snd].
  2: { rewrite stepAt_single. reflexivity. }
  rewrite stepAt_single. cbn [workerStep].
  destruct (store region client st1); reflexivity.
Qed.

End CacheProperties.

(** Counterexample to C9 as stated, under concurrent access.  Two workers
    ask for the same region; both look up before either assigns, so both
    construct a client: two constructions for one region, each worker holds
    a client of its own, and the second assignment replaces the first. *)
Lemma concurrent_callers_construct_twice :
  let c0 := {| conns.Conf := usWest2Config; conns.Serial := 0 |} in
  let c1 := {| conns.Conf := usWest2Config; conns.Serial := 1 |} in
  let m := run awsEnvVarNames profileOnly alwaysUp bothMissFirst twoWorkers in
  fst m = [Done (Some c0) None; Done (Some c1) None]
  /\ constructedFor "us-west-2" (snd m) = [c0; c1]
  /\ cached (snd m) "us-west-2" = Some c1
  /\ c0 <> c1.
Proof.
  cbv zeta. split; [vm_compute; reflexivity|].
  split; [vm_compute; reflexivity|].
  split; [vm_compute; reflexivity | discriminate].
Qed.

(** Witness for C9, on an empty cache: the first call for a region constructs and
    stores, a later call for another region and then the same region returns
    the stored client. *)
Lemma client_constructed_once_when_sequential_witness :
  exists c st1,
    SharedRegionalSweepClient awsEnvVarNames profileOnly alwaysUp "us-west-2" emptyCache
    = Return (Some c, None, st1)
    /\ exists st2,
         calls awsEnvVarNames profileOnly alwaysUp ["eu-west-1"] st1 = Return st2
         /\ SharedRegionalSweepClient awsEnvVarNames profileOnly alwaysUp "us-west-2" st2
            = Return (Some c, None, st2)
         /\ constructedFor "us-west-2" st2 = constructedFor "us-west-2" st1.
Proof.
  eexists _, _. split; [reflexivity|].
  eapply (client_constructed_once_when_sequential awsEnvVarNames profileOnly alwaysUp
            "us-west-2" emptyCache); reflexivity.
Defined.

(** * Further properties *)

(** ** More on the status reducers *)

(** Case analysis on everything the goal matches on. *)
Ltac break_matches :=
  repeat match goal with
         | |- context [match ?x with _ => _ end] => destruct x eqn:?
         end.

Section MoreReducerProperties.

Variable tf : tfec2.Constants.
Variable arnToName : string -> string * option error.

(** X1.  A poll panics only in a reducer that reads through an unchecked
    pointer, and only after a describe call that returned no error. *)
Theorem refresh_panics_only_on_nil_answer (p : Poll) :
  refresh tf arnToName p = Panic ->
  mayDereferenceNil p = true /\ describeError p = None.
Proof.
  destruct p; cbn [refresh describeError mayDereferenceNil]; intros Hrun;
    unfold_reducer_in Hrun; revert Hrun; try describe_answer; break_matches;
    intros Hrun; try discriminate; split; reflexivity.
Qed.

(** X2.  Except in [StatusInstanceIAMInstanceProfile] and
    [StatusEBSSnapshotImport], a returned error comes with a nil payload. *)
Theorem error_comes_without_payload (p : Poll)
    (payload : option RawResourceState) (status : string) (e : error) :
  keepsPayloadOnError p = false ->
  refresh tf arnToName p = Return (payload, status, Some e) ->
  payload = None.
Proof.
  destruct p; cbn [refresh keepsPayloadOnError]; intros Hkeep Hrun; try discriminate;
    unfold_reducer_in Hrun; revert Hrun; try describe_answer; break_matches;
    intros Hrun; inversion Hrun; reflexivity.
Qed.




(** X4.  [StatusVPCPeeringConnection] never reports one of the status codes
    [failed], [deleted], [expired] or [rejected]; a payload is returned
    without error. *)
Theorem peering_never_reports_terminal_code
    (find : string -> option ec2.VpcPeeringConnection * option error) (id : string)
    (payload : option RawResourceState) (status : string) (err : option error) :
  StatusVPCPeeringConnection tf find id = Return (payload, status, err) ->
  status <> "failed" /\ status <> "deleted" /\ status <> "expired" /\ status <> "rejected"
  /\ (payload <> None -> err = None).
Proof.
  unfold StatusVPCPeeringConnection. destruct (find id) as [pc e].
  destruct (tfawserr.ErrCodeEquals e _);
    [intros [= <- <- <-]; repeat split; discriminate|].
  destruct e; [intros [= <- <- <-]; repeat split; try discriminate; congruence|].
  destruct pc as [pc|]; [|intros [= <- <- <-]; repeat split; discriminate].
  destruct (ec2.VpcPeeringConnection_Status pc) as [st|];
    [|intros [= <- <- <-]; repeat split; discriminate].
  destruct (String.eqb _ ec2.VpcPeeringConnectionStateReasonCodeFailed) eqn:Hfailed;
    [intros [= <- <- <-]; repeat split; discriminate|].
  destruct (String.eqb _ ec2.VpcPeeringConnectionStateReasonCodeDeleted) eqn:Hdeleted;
    [intros [= <- <- <-]; repeat split; discriminate|].
  destruct (String.eqb _ ec2.VpcPeeringConnectionStateReasonCodeExpired) eqn:Hexpired;
    [intros [= <- <- <-]; repeat split; discriminate|].
  destruct (String.eqb _ ec2.VpcPeeringConnectionStateReasonCodeRejected) eqn:Hrejected;
    [intros [= <- <- <-]; repeat split; discriminate|].
  cbn [orb]. intros [= <- <- <-].
  apply String.eqb_neq in Hfailed, Hdeleted, Hexpired, Hrejected.
  repeat split; assumption.
Qed.

(** X5.  [StatusCarrierGatewayState] never reports the state [deleted]; a
    payload is returned without error. *)
Theorem carrier_gateway_never_reports_deleted
    (find : string -> option ec2.CarrierGateway * option error) (id : string)
    (payload : option RawResourceState) (status : string) (err : option error) :
  StatusCarrierGatewayState tf find id = Return (payload, status, err) ->
  status <> "deleted" /\ (payload <> None -> err = None).
Proof.
  unfold StatusCarrierGatewayState. destruct (find id) as [cg e].
  destruct (tfawserr.ErrCodeEquals e _);
    [intros [= <- <- <-]; split; [discriminate | congruence]|].
  destruct e; [intros [= <- <- <-]; split; [discriminate | congruence]|].
  destruct cg as [cg|]; [|intros [= <- <- <-]; split; [discriminate | congruence]].
  destruct (String.eqb _ ec2.CarrierGatewayStateDeleted) eqn:Hdeleted;
    intros [= <- <- <-]; [split; [discriminate | congruence]|].
  apply String.eqb_neq in Hdeleted. split; [assumption | reflexivity].
Qed.



(** X8.  On an answer whose first import task has a detail,
    [StatusEBSSnapshotImport] returns the detail and its status, with an
    error exactly when the status is the deleting state. *)
Theorem snapshot_import_error_iff_deleting
    (describe : list string -> option ec2.DescribeImportSnapshotTasksOutput * option error)
    (id : string) (r : ec2.DescribeImportSnapshotTasksOutput)
    (task : ec2.ImportSnapshotTask) (rest : list (option ec2.ImportSnapshotTask))
    (detail : ec2.SnapshotTaskDetail) :
  describe [id] = (Some r, None) ->
  ec2.ImportSnapshotTasks r = Some task :: rest ->
  ec2.ImportSnapshotTask_SnapshotTaskDetail task = Some detail ->
  exists err,
    StatusEBSSnapshotImport tf describe id
    = Return (Some (SnapshotTaskDetailPtr (Some detail)),
              aws.StringValue (ec2.SnapshotTaskDetail_Status detail), err)
    /\ (err <> None
        <-> ec2.SnapshotTaskDetail_Status detail
            = Some (tfec2.EBSSnapshotImportStateDeleting tf)).
Proof.
  intros Hd Htasks Hdetail. unfold StatusEBSSnapshotImport.
  rewrite Hd, Htasks, Hdetail.
  destruct (ec2.SnapshotTaskDetail_Status detail) as [s|] eqn:Hs; cbn [aws.StringValue].
  - destruct (String.eqb s (tfec2.EBSSnapshotImportStateDeleting tf)) eqn:Heq.
    + eexists. split; [reflexivity|]. apply String.eqb_eq in Heq. subst.
      split; [reflexivity | discriminate].
    + eexists. split; [reflexivity|]. apply String.eqb_neq in Heq.
      split; [congruence | intros [= ->]; congruence].
  - eexists. split; [reflexivity|]. split; [congruence | discriminate].
Qed.

End MoreReducerProperties.

(** Witness for X1: the import task without a detail. *)
Lemma refresh_panics_only_on_nil_answer_witness :
  mayDereferenceNil (PollEBSSnapshotImport taskWithoutDetail "import-snap-0123") = true
  /\ describeError (PollEBSSnapshotImport taskWithoutDetail "import-snap-0123") = None.
Proof.
  apply (refresh_panics_only_on_nil_answer providerConstants lastSegment
           (PollEBSSnapshotImport taskWithoutDetail "import-snap-0123")).
  reflexivity.
Defined.

(** Witness for X2: a carrier gateway whose describe call is refused. *)
Lemma error_comes_without_payload_witness :
  refresh providerConstants lastSegment carrierGatewayRefused
  = Return (None, "Unknown", Some (AwsError "UnauthorizedOperation" "not authorized"))
  /\ (None : option RawResourceState) = None.
Proof.
  split; [reflexivity|].
  apply (error_comes_without_payload providerConstants lastSegment carrierGatewayRefused
           None "Unknown" (AwsError "UnauthorizedOperation" "not authorized"));
    reflexivity.
Defined.


(** Witness for X4: an active peering connection. *)
Lemma peering_never_reports_terminal_code_witness :
  "active" <> "failed" /\ "active" <> "deleted" /\ "active" <> "expired"
  /\ "active" <> "rejected"
  /\ (Some (VpcPeeringConnectionPtr (fst (peeringActive "pcx-0123"))) <> None ->
      (None : option error) = None).
Proof.
  apply (peering_never_reports_terminal_code providerConstants peeringActive "pcx-0123").
  reflexivity.
Defined.

(** Witness for X5: an available carrier gateway. *)
Lemma carrier_gateway_never_reports_deleted_witness :
  "available" <> "deleted"
  /\ (Some (CarrierGatewayPtr (fst (carrierGatewayAvailable "cagw-0123"))) <> None ->
      (None : option error) = None).
Proof.
  apply (carrier_gateway_never_reports_deleted providerConstants carrierGatewayAvailable
           "cagw-0123").
  reflexivity.
Defined.



(** Witness for X8: an import task that is being deleted. *)
Lemma snapshot_import_error_iff_deleting_witness :
  exists err,
    StatusEBSSnapshotImport providerConstants taskDeleting "import-snap-0123"
    = Return (Some (SnapshotTaskDetailPtr
                      (Some {| ec2.SnapshotTaskDetail_Status := Some "deleting" |})),
              "deleting", err)
    /\ (err <> None <-> Some "deleting" = Some "deleting").
Proof.
  eapply (snapshot_import_error_iff_deleting providerConstants taskDeleting
            "import-snap-0123"); reflexivity.
Defined.

(** ** More on the sweeper *)

(** The first diagnostic of severity [Error] decides. *)
Lemma firstErrorDiagnostic_found (diags : diag.Diagnostics) (e : error) :
  firstErrorDiagnostic diags = Some e ->
  exists before dg after,
    diags = (before ++ dg :: after)%list
    /\ (forall w, In w before -> diag.Severity_ w = diag.Warning)
    /\ diag.Severity_ dg = diag.Error
    /\ e = ErrorString ("error deleting resource: " +:+ diag.Summary dg).
Proof.
  induction diags as [|dg rest IH]; cbn [firstErrorDiagnostic]; [discriminate|].
  destruct (diag.Severity_ dg) eqn:Hsev.
  - intros [= <-]. exists [], dg, rest. repeat split; [intros w [] | assumption].
  - intros H. destruct (IH H) as (before & dg' & after & -> & Hw & Hsev' & ->).
    exists (dg :: before), dg', after. repeat split; [|assumption].
    intros w [<- | Hin]; [assumption | now apply Hw].
Qed.

Lemma firstErrorDiagnostic_none (diags : diag.Diagnostics) :
  firstErrorDiagnostic diags = None
  <-> forall dg, In dg diags -> diag.Severity_ dg = diag.Warning.
Proof.
  induction diags as [|dg rest IH]; cbn [firstErrorDiagnostic In].
  - split; [intros _ ? [] | reflexivity].
  - destruct (diag.Severity_ dg) eqn:Hsev.
    + split; [discriminate|]. intros H. specialize (H dg (or_introl eq_refl)). congruence.
    + rewrite IH. split.
      * intros H w [<- | Hin]; [assumption | now apply H].
      * intros H w Hin. apply H. now right.
Qed.


Section MoreSweepProperties.

Variable Meta : Type.

(** X9.  For a resource with a [DeleteContext], [DeleteResource] looks at
    nothing but the diagnostics of that function: it returns nil exactly
    when none of them has severity [Error] (warnings never fail a delete),
    and otherwise an error made of the summary of the first [Error]
    diagnostic; [DeleteWithoutTimeout] and [Delete] are not consulted. *)
Theorem delete_context_result (r : Resource Meta)
    (deleteContext : schema.ResourceData -> Meta -> nat -> diag.Diagnostics)
    (d : schema.ResourceData) (m : Meta) (k : nat) :
  DeleteContext r = Some deleteContext ->
  (DeleteResource r d m k = None
   <-> forall dg, In dg (deleteContext d m k) -> diag.Severity_ dg = diag.Warning)
  /\ (forall e,
        DeleteResource r d m k = Some e ->
        exists before dg after,
          deleteContext d m k = (before ++ dg :: after)%list
          /\ (forall w, In w before -> diag.Severity_ w = diag.Warning)
          /\ diag.Severity_ dg = diag.Error
          /\ e = ErrorString ("error deleting resource: " +:+ diag.Summary dg)).
Proof.
  intros Hctx. unfold DeleteResource. rewrite Hctx. split.
  - apply firstErrorDiagnostic_none.
  - intros e. apply firstErrorDiagnostic_found.
Qed.


End MoreSweepProperties.

(** The empty text occurs in every text. *)
Lemma Contains_empty (s : string) : strings.Contains s "" = true.
Proof. destruct s; reflexivity. Qed.

(** X11.  [SkipSweepError] looks at nothing but the first AWS error on the
    unwrap chain: a nil error and an error that neither is nor wraps an AWS
    error are never skipped, and wrapping an error does not change the
    decision. *)
Theorem skip_looks_at_the_aws_error :
  SkipSweepError None = false
  /\ (forall e, tfawserr.as_awserr e = None -> SkipSweepError (Some e) = false)
  /\ (forall text e, SkipSweepError (Some (WrapError text e)) = SkipSweepError (Some e)).
Proof.
  split; [reflexivity|]. split.
  - intros e He. unfold SkipSweepError, tfawserr.ErrMessageContains. rewrite He. reflexivity.
  - intros text e. reflexivity.
Qed.

(** X12.  An AWS error whose code is none of the nine codes of the tests is
    never skipped, whatever its message. *)
Theorem unknown_code_is_never_skipped (e : error) (code message : string) :
  tfawserr.as_awserr e = Some (code, message) ->
  ~ In code skipCodes ->
  SkipSweepError (Some e) = false.
Proof.
  intros He Hcode. unfold SkipSweepError, tfawserr.ErrMessageContains. rewrite He.
  repeat match goal with
         | |- context [String.eqb code ?c] =>
             let H := fresh in
             destruct (String.eqb code c) eqn:H;
             [apply String.eqb_eq in H; exfalso; apply Hcode; rewrite H;
              unfold skipCodes; cbn [In]; tauto|]
         end.
  reflexivity.
Qed.

(** X13.  An AWS error with the code [UnsupportedOperation] or
    [AccessDeniedException] is skipped whatever its message, the empty
    message included. *)
Theorem code_alone_is_skipped (e : error) (code message : string) :
  tfawserr.as_awserr e = Some (code, message) ->
  code = "UnsupportedOperation" \/ code = "AccessDeniedException" ->
  SkipSweepError (Some e) = true.
Proof.
  intros He Hcode. unfold SkipSweepError, tfawserr.ErrMessageContains. rewrite He.
  destruct Hcode as [-> | ->]; cbn [String.eqb Ascii.eqb Bool.eqb andb];
    rewrite ?Contains_empty; reflexivity.
Qed.

(** Witness for X9: a warning, a throttling error and a second error. *)
Lemma delete_context_result_witness :
  exists before dg after,
    throttledDiagnostics = (before ++ dg :: after)%list
    /\ (forall w, In w before -> diag.Severity_ w = diag.Warning)
    /\ diag.Severity_ dg = diag.Error
    /\ ErrorString "error deleting resource: Throttling: Rate exceeded"
       = ErrorString ("error deleting resource: " +:+ diag.Summary dg).
Proof.
  destruct (delete_context_result unit (contextResource throttledDiagnostics)
              (fun _ _ _ => throttledDiagnostics) {| schema.Id := "sg-1" |} tt 0 eq_refl)
    as [_ Hfound].
  apply Hfound. reflexivity.
Defined.


(** Witness for X11: a plain text error wrapped once. *)
Lemma skip_looks_at_the_aws_error_witness :
  SkipSweepError (Some (WrapError "listing: " (ErrorString "connection reset"))) = false.
Proof.
  destruct skip_looks_at_the_aws_error as (_ & Hplain & _).
  apply Hplain. reflexivity.
Defined.

(** Witness for X12: a dependency violation. *)
Lemma unknown_code_is_never_skipped_witness :
  SkipSweepError (Some refusedError) = false.
Proof.
  apply (unknown_code_is_never_skipped refusedError "DependencyViolation"
           "resource has dependents"); [reflexivity|].
  unfold skipCodes. cbn [In]. intros H.
  repeat destruct H as [H | H]; try discriminate H. exact H.
Defined.

(** Witness for X13: an access-denied answer without message. *)
Lemma code_alone_is_skipped_witness :
  SkipSweepError (Some (AwsError "AccessDeniedException" "")) = true.
Proof.
  apply (code_alone_is_skipped (AwsError "AccessDeniedException" "")
           "AccessDeniedException" ""); [reflexivity | right; reflexivity].
Defined.

(** ** More on the regional client cache *)

Section MoreCacheProperties.

Variable names : conns.EnvVarNames.
Variable getenv : string -> string.
Variable dial : conns.Config -> nat -> option error.

(** The configuration always carries the sweeper's retry count. *)
Lemma configure_retries (region : string) (conf : conns.Config) :
  configure names getenv region = inl conf -> conns.MaxRetries conf = 5%Z.
Proof.
  unfold configure.
  destruct (conns.RequireOneOfEnvVar _ _ _) as [[? ?] [e|]]; [discriminate|].
  destruct (if negb _ then _ else _); [discriminate|].
  destruct (String.eqb _ ""); [intros [= <-]; reflexivity|].
  destruct (snd _); [discriminate|]. intros [= <-]. reflexivity.
Qed.

(** X14.  A call returns either a client or an error, never both and never
    neither.  When it returns an error, nothing was constructed and nothing
    stored: the process state is unchanged.  When it returns a client, that
    client is the one the cache now holds for the region. *)
Theorem call_returns_client_or_error (region : string) (st st1 : Process)
    (res : option conns.AWSClient) (err : option error) :
  SharedRegionalSweepClient names getenv dial region st = Return (res, err, st1) ->
  (err <> None -> res = None /\ st1 = st)
  /\ (err = None -> exists c, res = Some c /\ cached st1 region = Some c).
Proof.
  intros Hcall. destruct (cached st region) as [c|] eqn:Hcached.
  - rewrite (cache_hit names getenv dial region st c Hcached) in Hcall.
    injection Hcall as <- <- <-. split; [congruence|]. intros _. eauto.
  - destruct (cache_miss names getenv dial region st st1 res err Hcached Hcall)
      as [(-> & Herr & ->) | (c & clients & -> & -> & _ & _ & Hmap1 & _)].
    + split; [intros _; split; reflexivity | congruence].
    + split; [congruence|]. intros _. exists c. split; [reflexivity|].
      unfold cached. rewrite Hmap1. apply lookup_insert_eq.
Qed.

(** X15.  While the map [SweeperClients] is nil no call returns a client: a
    call returns an error with the process unchanged, or, when the
    environment is in order and the client construction succeeds, it panics
    on the assignment into the nil map. *)
Theorem nil_map_never_yields_a_client (region : string) (st : Process) :
  SweeperClients st = None ->
  match SharedRegionalSweepClient names getenv dial region st with
  | Panic =>
      exists conf,
        configure names getenv region = inl conf
        /\ dial conf (length (constructed st)) = None
  | Return (res, err, st1) => res = None /\ err <> None /\ st1 = st
  end.
Proof.
  intros Hnil. unfold SharedRegionalSweepClient, cached. rewrite Hnil.
  destruct (configure names getenv region) as [conf|e]; [|now repeat split].
  unfold Client. destruct (dial conf (length (constructed st))) as [e|] eqn:Hdial;
    [now repeat split|].
  unfold store. cbn [SweeperClients]. rewrite Hnil. exists conf. now split.
Qed.

(** A call keeps the cache well keyed. *)
Lemma call_keeps_well_keyed (region : string) (st st1 : Process)
    (res : option conns.AWSClient) (err : option error) :
  wellKeyed st ->
  SharedRegionalSweepClient names getenv dial region st = Return (res, err, st1) ->
  wellKeyed st1.
Proof.
  intros Hwk. unfold SharedRegionalSweepClient.
  destruct (cached st region) as [c|] eqn:Hcached; [intros [= <- <- <-]; assumption|].
  destruct (configure names getenv region) as [conf|e] eqn:Hconf;
    [|intros [= <- <- <-]; assumption].
  unfold Client. destruct (dial conf (length (constructed st))) as [e|];
    [intros [= <- <- <-]; assumption|].
  unfold store. cbn [SweeperClients constructed].
  destruct (SweeperClients st) as [clients|] eqn:Hmap; [|discriminate].
  intros [= <- <- <-]. intros r c. unfold cached. cbn [SweeperClients].
  destruct (decide (region = r)) as [<- | Hne].
  - rewrite lookup_insert_eq. intros [= <-]. cbn [conns.Conf].
    split; [now apply (configure_region names getenv region)
           | now apply (configure_retries region)].
  - rewrite lookup_insert_ne by assumption. intros Hc. apply Hwk.
    unfold cached. now rewrite Hmap.
Qed.

(** X16.  Any sequence of calls keeps the cache well keyed: every client it
    holds is configured for the region it is stored under, with
    [MaxRetries] 5. *)
Theorem calls_keep_cache_well_keyed (regions : list string) :
  forall st st1,
    wellKeyed st ->
    calls names getenv dial regions st = Return st1 ->
    wellKeyed st1.
Proof.
  induction regions as [|region rest IH]; intros st st1 Hwk; cbn [calls].
  - intros [= <-]. assumption.
  - destruct (SharedRegionalSweepClient names getenv dial region st)
      as [[[res err] st']|] eqn:Hcall; [|discriminate].
    apply IH. eapply call_keeps_well_keyed; eassumption.
Qed.

(** X17.  The role settings of the configuration.  Without a role ARN in
    the environment the other role variables are not read: the
    configuration has no role, whatever they hold.  With a role ARN the
    configuration carries it, with the external id and the session name of
    the environment, and the duration is 3600 seconds when the duration
    variable is empty. *)
Theorem configuration_role_settings (region : string) (conf : conns.Config) :
  configure names getenv region = inl conf ->
  (getenv (conns.EnvVarAssumeRoleARN names) = "" ->
   conf = {| conns.MaxRetries := 5; conns.Region := region;
             conns.AssumeRoleARN := ""; conns.AssumeRoleDurationSeconds := 0;
             conns.AssumeRoleExternalID := ""; conns.AssumeRoleSessionName := "" |})
  /\ (getenv (conns.EnvVarAssumeRoleARN names) <> "" ->
      conns.AssumeRoleARN conf = getenv (conns.EnvVarAssumeRoleARN names)
      /\ conns.AssumeRoleExternalID conf = getenv (conns.EnvVarAssumeRoleExternalID names)
      /\ conns.AssumeRoleSessionName conf = getenv (conns.EnvVarAssumeRoleSessionName names)
      /\ (getenv (conns.EnvVarAssumeRoleDuration names) = "" ->
          conns.AssumeRoleDurationSeconds conf = 3600%Z)
      /\ (getenv (conns.EnvVarAssumeRoleDuration names) <> "" ->
          strconv.Atoi (getenv (conns.EnvVarAssumeRoleDuration names))
          = (conns.AssumeRoleDurationSeconds conf, None))).
Proof.
  unfold configure.
  destruct (conns.RequireOneOfEnvVar _ _ _) as [[? ?] [e|]]; [discriminate|].
  destruct (if negb _ then _ else _); [discriminate|].
  destruct (String.eqb (getenv (conns.EnvVarAssumeRoleARN names)) "") eqn:Hrole.
  - intros [= <-]. apply String.eqb_eq in Hrole. split; [reflexivity | congruence].
  - apply String.eqb_neq in Hrole.
    destruct (String.eqb (getenv (conns.EnvVarAssumeRoleDuration names)) "") eqn:Hdur.
    + cbn [fst snd]. intros [= <-]. apply String.eqb_eq in Hdur.
      split; [congruence|]. intros _. cbn. repeat split; congruence.
    + apply String.eqb_neq in Hdur.
      destruct (strconv.Atoi _) as [v [e|]] eqn:Hatoi; cbn [fst snd]; [discriminate|].
      intros [= <-]. split; [congruence|]. intros _. cbn. repeat split; congruence.
Qed.

(** A worker that only reads stays so, and leaves the process as it is. *)
Lemma reader_step (region : string) (c : conns.AWSClient) (w : Worker) (st : Process) :
  cached st region = Some c ->
  readsOnly region c w ->
  readsOnly region c (fst (workerStep names getenv dial w st))
  /\ snd (workerStep names getenv dial w st) = st.
Proof.
  intros Hc [-> | ->]; cbn [workerStep].
  - rewrite Hc. split; [now right | reflexivity].
  - split; [now right | reflexivity].
Qed.

Lemma readers_stepAt (region : string) (c : conns.AWSClient) (i : nat)
    (ws : list Worker) (st : Process) :
  cached st region = Some c ->
  Forall (readsOnly region c) ws ->
  Forall (readsOnly region c) (fst (stepAt names getenv dial i (ws, st)))
  /\ snd (stepAt names getenv dial i (ws, st)) = st.
Proof.
  intros Hc Hws. unfold stepAt. cbn [fst snd].
  destruct (ws !! i) as [w|] eqn:Hw; [|now split].
  assert (Hr : readsOnly region c w).
  { rewrite Forall_forall in Hws. apply Hws.
    eapply list_elem_of_lookup_2. exact Hw. }
  destruct (reader_step region c w st Hc Hr) as [H1 H2].
  destruct (workerStep names getenv dial w st) as [w' st']. cbn [fst snd] in *.
  split; [|assumption]. apply Forall_insert; assumption.
Qed.

(** X18.  Once the cache holds the client of a region, workers that ask for
    that region only read.  Under every schedule the process state stays
    as it is, so nothing is constructed, and every worker either has not
    run yet or holds the cached client. *)
Theorem warm_cache_is_only_read (region : string) (c : conns.AWSClient)
    (schedule : list nat) :
  forall (ws : list Worker) (st : Process),
    cached st region = Some c ->
    Forall (readsOnly region c) ws ->
    Forall (readsOnly region c) (fst (run names getenv dial schedule (ws, st)))
    /\ snd (run names getenv dial schedule (ws, st)) = st.
Proof.
  unfold run. induction schedule as [|i rest IH]; intros ws st Hc Hws; cbn [fold_left].
  - now split.
  - destruct (readers_stepAt region c i ws st Hc Hws) as [H1 H2].
    destruct (stepAt names getenv dial i (ws, st)) as [ws' st']. cbn [fst snd] in *.
    subst st'. now apply IH.
Qed.

End MoreCacheProperties.

(** The empty cache is well keyed. *)
Lemma emptyCache_well_keyed : wellKeyed emptyCache.
Proof. intros region client. unfold cached. cbn. rewrite lookup_empty. discriminate. Qed.

(** Witness for X14: a first call on the empty cache. *)
Lemma call_returns_client_or_error_witness :
  exists c st1,
    SharedRegionalSweepClient awsEnvVarNames profileOnly alwaysUp "us-west-2" emptyCache
    = Return (Some c, None, st1)
    /\ exists c', Some c = Some c' /\ cached st1 "us-west-2" = Some c'.
Proof.
  eexists _, _. split; [reflexivity|].
  eapply (call_returns_client_or_error awsEnvVarNames profileOnly alwaysUp "us-west-2"
            emptyCache); reflexivity.
Defined.

(** Witness for X15: the first call of a process whose map is nil. *)
Lemma nil_map_never_yields_a_client_witness :
  SharedRegionalSweepClient awsEnvVarNames profileOnly alwaysUp "us-west-2" nilCache = Panic
  /\ exists conf,
       configure awsEnvVarNames profileOnly "us-west-2" = inl conf
       /\ alwaysUp conf (length (constructed nilCache)) = None.
Proof.
  split; [reflexivity|].
  apply (nil_map_never_yields_a_client awsEnvVarNames profileOnly alwaysUp "us-west-2"
           nilCache eq_refl).
Defined.

(** Witness for X16: two regions asked for in turn. *)
Lemma calls_keep_cache_well_keyed_witness :
  exists st1,
    calls awsEnvVarNames profileOnly alwaysUp ["us-west-2"; "eu-west-1"; "us-west-2"] emptyCache
    = Return st1
    /\ wellKeyed st1.
Proof.
  eexists. split; [reflexivity|].
  eapply (calls_keep_cache_well_keyed awsEnvVarNames profileOnly alwaysUp
            ["us-west-2"; "eu-west-1"; "us-west-2"] emptyCache);
    [exact emptyCache_well_keyed | reflexivity].
Defined.

(** Witness for X17: a role with a duration of 900 seconds. *)
Lemma configuration_role_settings_witness :
  exists conf,
    configure awsEnvVarNames profileAndRole "us-west-2" = inl conf
    /\ conns.AssumeRoleARN conf = "arn:aws:iam::123456789012:role/sweeper"
    /\ conns.AssumeRoleSessionName conf = "sweep"
    /\ conns.AssumeRoleDurationSeconds conf = 900%Z.
Proof.
  eexists. split; [reflexivity|].
  destruct (configuration_role_settings awsEnvVarNames profileAndRole "us-west-2" _ eq_refl)
    as [_ Hrole].
  destruct (Hrole ltac:(discriminate)) as (Harn & _ & Hsession & _ & Hduration).
  split; [exact Harn|]. split; [exact Hsession|].
  specialize (Hduration ltac:(discriminate)).
  exact (eq_sym (f_equal fst Hduration)).
Defined.

(** Witness for X18: two workers on a cache that holds the client. *)
Lemma warm_cache_is_only_read_witness :
  Forall (readsOnly "us-west-2" usWest2Client)
    (fst (run awsEnvVarNames profileOnly alwaysUp bothMissFirst
            ([Ready "us-west-2"; Ready "us-west-2"], warmCache)))
  /\ snd (run awsEnvVarNames profileOnly alwaysUp bothMissFirst
            ([Ready "us-west-2"; Ready "us-west-2"], warmCache))
     = warmCache.
Proof.
  apply (warm_cache_is_only_read awsEnvVarNames profileOnly alwaysUp "us-west-2"
           usWest2Client bothMissFirst).
  - vm_compute. reflexivity.
  - repeat constructor.
Defined.

(** ** The Kinesis Analytics finders *)

(** X19.  [ApplicationDetail] and [SnapshotDetails] return either the
    detail or an error, never both and never neither: an empty answer of
    the service is turned into an error. *)
Theorem finders_return_detail_or_error :
  (forall describe input,
      fst (finder.ApplicationDetail describe input) = None
      <-> snd (finder.ApplicationDetail describe input) <> None)
  /\ (forall describe input,
         fst (finder.SnapshotDetails describe input) = None
         <-> snd (finder.SnapshotDetails describe input) <> None).
Proof.
  split; intros describe input.
  - unfold finder.ApplicationDetail. destruct (describe input) as [output err].
    destruct (tfawserr.ErrCodeEquals err _); [cbn; split; [discriminate | reflexivity]|].
    destruct err as [e|]; [cbn; split; [discriminate | reflexivity]|].
    destruct output as [out|]; [|cbn; split; [discriminate | reflexivity]].
    destruct (kinesisanalyticsv2.DescribeApplicationOutput_ApplicationDetail out);
      cbn; split; congruence.
  - unfold finder.SnapshotDetails. destruct (describe input) as [output err].
    destruct (tfawserr.ErrCodeEquals err _); [cbn; split; [discriminate | reflexivity]|].
    destruct (tfawserr.ErrMessageContains err _ _);
      [cbn; split; [discriminate | reflexivity]|].
    destruct err as [e|]; [cbn; split; [discriminate | reflexivity]|].
    destruct output as [out|]; [|cbn; split; [discriminate | reflexivity]].
    destruct (kinesisanalyticsv2.DescribeApplicationSnapshotOutput_SnapshotDetails out);
      cbn; split; congruence.
Qed.

(** X20.  The error [SnapshotDetails] returns is the error of the describe
    call itself, unchanged, unless that error has the code
    [ResourceNotFoundException], or the code [InvalidArgumentException]
    with a message containing [does not exist]: those two, and an empty
    answer, become a [NotFoundError].  An [InvalidArgumentException] with
    another message is passed on as it is. *)
Theorem snapshot_finder_error_origin
    (describe : option kinesisanalyticsv2.DescribeApplicationSnapshotInput ->
                option kinesisanalyticsv2.DescribeApplicationSnapshotOutput * option error)
    (input : option kinesisanalyticsv2.DescribeApplicationSnapshotInput)
    (details : option kinesisanalyticsv2.SnapshotDetails) (e : error) :
  finder.SnapshotDetails describe input = (details, Some e) ->
  (snd (describe input) = Some e
   /\ tfawserr.ErrCodeEquals (Some e) "ResourceNotFoundException" = false
   /\ tfawserr.ErrMessageContains (Some e) "InvalidArgumentException" "does not exist" = false)
  \/ (e = NotFoundError ""
      /\ (tfawserr.ErrCodeEquals (snd (describe input)) "ResourceNotFoundException" = true
          \/ tfawserr.ErrMessageContains (snd (describe input)) "InvalidArgumentException"
               "does not exist" = true))
  \/ (e = NotFoundError "Empty result" /\ snd (describe input) = None).
Proof.
  unfold finder.SnapshotDetails. destruct (describe input) as [output err]. cbn [snd].
  destruct (tfawserr.ErrCodeEquals err _) eqn:Hcode.
  { intros [= <- <-]. right. left. split; [reflexivity | now left]. }
  destruct (tfawserr.ErrMessageContains err _ _) eqn:Hmsg.
  { intros [= <- <-]. right. left. split; [reflexivity | now right]. }
  destruct err as [e'|].
  { intros [= <- <-]. left. repeat split; assumption. }
  destruct output as [out|];
    [destruct (kinesisanalyticsv2.DescribeApplicationSnapshotOutput_SnapshotDetails out)|];
    intros [= <- <-] || discriminate; right; right; split; reflexivity.
Qed.

(** Witness for X20: a snapshot that does not exist, and a name that is
    refused. *)
Lemma snapshot_finder_error_origin_witness :
  finder.SnapshotDetailsByApplicationAndSnapshotNames snapshotDoesNotExist "app" "nightly"
  = (None, Some (NotFoundError ""))
  /\ finder.SnapshotDetailsByApplicationAndSnapshotNames snapshotNameInvalid "app" "nightly"
     = (None, Some (AwsError "InvalidArgumentException" "Snapshot name is too long"))
  /\ ((snd (snapshotNameInvalid None)
       = Some (AwsError "InvalidArgumentException" "Snapshot name is too long")
       /\ tfawserr.ErrCodeEquals
            (Some (AwsError "InvalidArgumentException" "Snapshot name is too long"))
            "ResourceNotFoundException" = false
       /\ tfawserr.ErrMessageContains
            (Some (AwsError "InvalidArgumentException" "Snapshot name is too long"))
            "InvalidArgumentException" "does not exist" = false)
      \/ (AwsError "InvalidArgumentException" "Snapshot name is too long" = NotFoundError ""
          /\ (tfawserr.ErrCodeEquals (snd (snapshotNameInvalid None))
                "ResourceNotFoundException" = true
              \/ tfawserr.ErrMessageContains (snd (snapshotNameInvalid None))
                   "InvalidArgumentException" "does not exist" = true))
      \/ (AwsError "InvalidArgumentException" "Snapshot name is too long"
          = NotFoundError "Empty result"
          /\ snd (snapshotNameInvalid None) = None)).
Proof.
  split; [reflexivity|]. split; [reflexivity|].
  apply (snapshot_finder_error_origin snapshotNameInvalid None None). reflexivity.
Defined.

(** ** The CodePipeline webhook resource *)

(** X21.  Filters survive the way to the service and back: when
    [extractCodePipelineWebhookRules] returns, flattening its rules does not
    panic and gives, filter by filter and in the same order, a map with the
    same [json_path] and [match_equals] and no other key. *)
Theorem filters_round_trip (filters : list (gmap string iface)) :
  forall rules,
    extractCodePipelineWebhookRules filters = Return rules ->
    exists flat,
      flattenCodePipelineWebhookFilters rules = Return flat
      /\ Forall2
           (fun (r f : gmap string iface) =>
              f !! "json_path" = r !! "json_path"
              /\ f !! "match_equals" = r !! "match_equals"
              /\ forall key, key <> "json_path" -> key <> "match_equals" -> f !! key = None)
           filters flat.
Proof.
  induction filters as [|r rest IH]; intros rules; cbn [extractCodePipelineWebhookRules].
  - intros [= <-]. exists []. split; [reflexivity | constructor].
  - destruct (r !! "json_path") as [[jp|]|] eqn:Hjp; cbn [assertString]; try discriminate.
    destruct (r !! "match_equals") as [[me|]|] eqn:Hme; cbn [assertString]; try discriminate.
    destruct (extractCodePipelineWebhookRules rest) as [rules'|]; [|discriminate].
    intros [= <-]. destruct (IH rules' eq_refl) as (flat & Hflat & Hall).
    cbn [flattenCodePipelineWebhookFilters]. rewrite Hflat.
    eexists. split; [reflexivity|]. constructor; [|assumption].
    cbn [codepipeline.JsonPath codepipeline.MatchEquals aws.StringValue].
    split; [|split].
    + rewrite lookup_insert_eq. now rewrite Hjp.
    + rewrite lookup_insert_ne by discriminate. rewrite lookup_singleton_eq.
      now rewrite Hme.
    + intros key H1 H2. rewrite lookup_insert_ne by congruence.
      apply lookup_singleton_ne. congruence.
Qed.

(** X22.  The authentication configuration keeps only the setting of the
    webhook's authentication type.  When
    [extractCodePipelineWebhookAuthConfig] returns, flattening its result
    gives one map with the allowed IP range alone for the type [IP], one
    map with the secret token alone for the type [GITHUB_HMAC], and no map
    at all for any other type. *)
Theorem auth_config_round_trip (authType : string) (authConfig : gmap string iface)
    (conf : codepipeline.WebhookAuthConfiguration) :
  extractCodePipelineWebhookAuthConfig authType authConfig = Return conf ->
  (authType = "IP" ->
   exists v,
     authConfig !! "allowed_ip_range" = Some (IString v)
     /\ flattenCodePipelineWebhookAuthenticationConfiguration (Some conf)
        = Return [{[ "allowed_ip_range" := IString v ]}])
  /\ (authType = "GITHUB_HMAC" ->
      exists v,
        authConfig !! "secret_token" = Some (IString v)
        /\ flattenCodePipelineWebhookAuthenticationConfiguration (Some conf)
           = Return [{[ "secret_token" := IString v ]}])
  /\ (authType <> "IP" -> authType <> "GITHUB_HMAC" ->
      flattenCodePipelineWebhookAuthenticationConfiguration (Some conf) = Return []).
Proof.
  unfold extractCodePipelineWebhookAuthConfig.
  destruct (String.eqb authType codepipeline.WebhookAuthenticationTypeIp) eqn:Hip.
  - apply String.eqb_eq in Hip. subst authType.
    destruct (authConfig !! "allowed_ip_range") as [[v|]|] eqn:Hv; cbn [assertString];
      try discriminate.
    intros [= <-]. split; [|split].
    + intros _. exists v. split; [reflexivity|].
      unfold flattenCodePipelineWebhookAuthenticationConfiguration.
      cbn [codepipeline.AllowedIPRange codepipeline.SecretToken aws.StringValue].
      rewrite insert_empty, map_size_singleton. reflexivity.
    + discriminate.
    + intros H. now contradiction H.
  - apply String.eqb_neq in Hip.
    destruct (String.eqb authType codepipeline.WebhookAuthenticationTypeGithubHmac) eqn:Hgh.
    + apply String.eqb_eq in Hgh. subst authType.
      destruct (authConfig !! "secret_token") as [[v|]|] eqn:Hv; cbn [assertString];
        try discriminate.
      intros [= <-]. split; [|split].
      * discriminate.
      * intros _. exists v. split; [reflexivity|].
        unfold flattenCodePipelineWebhookAuthenticationConfiguration.
        cbn [codepipeline.AllowedIPRange codepipeline.SecretToken aws.StringValue].
        rewrite insert_empty, map_size_singleton. reflexivity.
      * intros _ H. now contradiction H.
    + apply String.eqb_neq in Hgh. intros [= <-]. split; [|split].
      * intros ->. now contradiction Hip.
      * intros ->. now contradiction Hgh.
      * intros _ _. unfold flattenCodePipelineWebhookAuthenticationConfiguration.
        cbn [codepipeline.AllowedIPRange codepipeline.SecretToken].
        rewrite map_size_empty. reflexivity.
Qed.

(** X23.  [extractCodePipelineWebhookAuthConfig] panics exactly when the
    authentication type is [IP] or [GITHUB_HMAC] and the configuration map,
    which is nil when the resource has no configuration block, holds no
    string under the key of that type. *)
Theorem auth_config_panics_without_its_key (authType : string)
    (authConfig : gmap string iface) :
  extractCodePipelineWebhookAuthConfig authType authConfig = Panic
  <-> (authType = "IP" /\ assertString (authConfig !! "allowed_ip_range") = Panic)
      \/ (authType = "GITHUB_HMAC" /\ assertString (authConfig !! "secret_token") = Panic).
Proof.
  unfold extractCodePipelineWebhookAuthConfig.
  destruct (String.eqb authType codepipeline.WebhookAuthenticationTypeIp) eqn:Hip.
  - apply String.eqb_eq in Hip. subst authType.
    destruct (assertString (authConfig !! "allowed_ip_range")); split.
    + discriminate.
    + intros [[_ H] | [H _]]; discriminate.
    + intros _. left. now split.
    + reflexivity.
  - apply String.eqb_neq in Hip.
    destruct (String.eqb authType codepipeline.WebhookAuthenticationTypeGithubHmac) eqn:Hgh.
    + apply String.eqb_eq in Hgh. subst authType.
      destruct (assertString (authConfig !! "secret_token")); split.
      * discriminate.
      * intros [[H _] | [_ H]]; discriminate.
      * intros _. right. now split.
      * reflexivity.
    + apply String.eqb_neq in Hgh. split; [discriminate|].
      intros [[-> _] | [-> _]]; [now contradiction Hip | now contradiction Hgh].
Qed.

(** Scanning two lists in a row. *)
Lemma scanWebhooks_app (arn : string)
    (first second : list (option codepipeline.ListWebhookItem)) :
  scanWebhooks arn (first ++ second)
  = match scanWebhooks arn first with
    | Return None => scanWebhooks arn second
    | found => found
    end.
Proof.
  induction first as [|[w|] rest IH]; cbn [scanWebhooks app]; try reflexivity.
  destruct (String.eqb arn _); [reflexivity | exact IH].
Qed.

(** A webhook that the scan returns carries the ARN. *)
Lemma scanWebhooks_found (arn : string)
    (webhooks : list (option codepipeline.ListWebhookItem)) (w : codepipeline.ListWebhookItem) :
  scanWebhooks arn webhooks = Return (Some w) ->
  In (Some w) webhooks /\ aws.StringValue (codepipeline.Arn w) = arn.
Proof.
  induction webhooks as [|[w'|] rest IH]; cbn [scanWebhooks In]; try discriminate.
  destruct (String.eqb arn _) eqn:Harn.
  - intros [= <-]. apply String.eqb_eq in Harn. split; [now left | congruence].
  - intros H. destruct (IH H). split; [now right | assumption].
Qed.

(** X24.  Whatever [GetWebhook] returns is either a webhook or an error,
    never both and never neither; a returned webhook carries the requested
    ARN. *)
Theorem GetWebhook_returns_the_arn (fuel : nat)
    (ListWebhooks : option string -> option codepipeline.ListWebhooksOutput * option error)
    (arn : string) (webhook : option codepipeline.ListWebhookItem) (err : option error) :
  GetWebhook fuel ListWebhooks arn = Some (Return (webhook, err)) ->
  (forall w, webhook = Some w ->
             err = None /\ aws.StringValue (codepipeline.Arn w) = arn)
  /\ (webhook = None -> err <> None).
Proof.
  unfold GetWebhook. generalize "" as nextToken.
  induction fuel as [|fuel IH]; intros nextToken; cbn [getWebhookFrom]; [discriminate|].
  destruct (ListWebhooks (request nextToken)) as [out e].
  destruct e as [e|].
  { intros [= <- <-]. split; [discriminate | intros _; discriminate]. }
  destruct out as [o|]; [|discriminate].
  destruct (scanWebhooks arn (codepipeline.Webhooks o)) as [[w|]|] eqn:Hscan;
    [| |discriminate].
  - intros [= <- <-]. split; [|discriminate].
    intros w' [= <-]. split; [reflexivity|]. now apply (scanWebhooks_found _ _ _ Hscan).
  - destruct (codepipeline.NextToken o); [apply IH|].
    intros [= <- <-]. split; [discriminate | intros _; discriminate].
Qed.

(** X25.  When the service lists its webhooks in finitely many pages,
    [GetWebhook] ends after asking for each page at most once, and its
    result is that of one scan over all pages in order: the first webhook
    with the ARN, or the not-found error when no page holds one. *)
Theorem GetWebhook_scans_all_pages
    (ListWebhooks : option string -> option codepipeline.ListWebhooksOutput * option error)
    (arn : string) (pages : list codepipeline.ListWebhooksOutput) :
  served codepipeline.NextToken ListWebhooks "" pages ->
  GetWebhook (length pages) ListWebhooks arn
  = Some (webhookAmong arn (concat (map codepipeline.Webhooks pages))).
Proof.
  unfold GetWebhook. generalize "" as nextToken.
  induction pages as [|page rest IH]; intros nextToken; cbn [served]; [intros []|].
  intros [Hpage Hrest]. cbn [length getWebhookFrom map concat]. rewrite Hpage.
  unfold webhookAmong. rewrite scanWebhooks_app.
  destruct (scanWebhooks arn (codepipeline.Webhooks page)) as [[w|]|]; try reflexivity.
  destruct rest as [|page' rest'].
  - rewrite Hrest. reflexivity.
  - destruct Hrest as (token & Htoken & Hserved). rewrite Htoken.
    apply (IH _ Hserved).
Qed.

(** X26.  A page without the ARN whose token is the empty string sends the
    loop back to the first request: when the first page is such a page,
    [GetWebhook] never returns, however many pages it may ask for. *)
Theorem GetWebhook_empty_token_repeats
    (ListWebhooks : option string -> option codepipeline.ListWebhooksOutput * option error)
    (arn : string) (page : codepipeline.ListWebhooksOutput) :
  ListWebhooks None = (Some page, None) ->
  scanWebhooks arn (codepipeline.Webhooks page) = Return None ->
  codepipeline.NextToken page = Some "" ->
  forall fuel, GetWebhook fuel ListWebhooks arn = None.
Proof.
  intros Hpage Hscan Htoken fuel. unfold GetWebhook.
  induction fuel as [|fuel IH]; cbn [getWebhookFrom]; [reflexivity|].
  change (request "") with (@None string). rewrite Hpage, Hscan, Htoken.
  exact IH.
Qed.

(** Witness for X21: one filter. *)
Lemma filters_round_trip_witness :
  exists flat,
    flattenCodePipelineWebhookFilters
      [Some {| codepipeline.JsonPath := Some "$.ref";
               codepipeline.MatchEquals := Some "refs/heads/main" |}]
    = Return flat
    /\ Forall2
         (fun (r f : gmap string iface) =>
            f !! "json_path" = r !! "json_path"
            /\ f !! "match_equals" = r !! "match_equals"
            /\ forall key, key <> "json_path" -> key <> "match_equals" -> f !! key = None)
         [hookFilter] flat.
Proof.
  apply (filters_round_trip [hookFilter]). vm_compute. reflexivity.
Defined.

(** Witness for X22: an IP webhook whose configuration also holds a secret
    token. *)
Lemma auth_config_round_trip_witness :
  exists v,
    ipConfig !! "allowed_ip_range" = Some (IString v)
    /\ flattenCodePipelineWebhookAuthenticationConfiguration
         (Some {| codepipeline.AllowedIPRange := Some "10.0.0.0/8";
                  codepipeline.SecretToken := None |})
       = Return [{[ "allowed_ip_range" := IString v ]}].
Proof.
  destruct (auth_config_round_trip "IP" ipConfig
              {| codepipeline.AllowedIPRange := Some "10.0.0.0/8";
                 codepipeline.SecretToken := None |}) as [Hip _].
  - vm_compute. reflexivity.
  - apply Hip. reflexivity.
Defined.

(** Witness for X23: a webhook with the type [GITHUB_HMAC] and no
    configuration block. *)
Lemma auth_config_panics_without_its_key_witness :
  extractCodePipelineWebhookAuthConfig "GITHUB_HMAC" ∅ = Panic.
Proof.
  apply (auth_config_panics_without_its_key "GITHUB_HMAC" ∅).
  right. split; reflexivity.
Defined.

(** Witness for X24: the webhook on the second of two pages. *)
Lemma GetWebhook_returns_the_arn_witness :
  (forall w, Some webhookB = Some w ->
             (None : option error) = None
             /\ aws.StringValue (codepipeline.Arn w)
                = "arn:aws:codepipeline:us-west-2:123456789012:webhook:b")
  /\ (Some webhookB = None -> (None : option error) <> None).
Proof.
  apply (GetWebhook_returns_the_arn 2 twoPages
           "arn:aws:codepipeline:us-west-2:123456789012:webhook:b").
  reflexivity.
Defined.

(** Witness for X25: the same listing, for an ARN that no page holds. *)
Lemma GetWebhook_scans_all_pages_witness :
  GetWebhook 2 twoPages "arn:aws:codepipeline:us-west-2:123456789012:webhook:c"
  = Some (Return (None, Some (noWebhook "arn:aws:codepipeline:us-west-2:123456789012:webhook:c"))).
Proof.
  apply (GetWebhook_scans_all_pages twoPages
           "arn:aws:codepipeline:us-west-2:123456789012:webhook:c"
           [ {| codepipeline.Webhooks := [Some webhookA];
                codepipeline.NextToken := Some "page2" |};
             {| codepipeline.Webhooks := [Some webhookB];
                codepipeline.NextToken := None |} ]).
  cbn. split; [reflexivity|]. exists "page2". repeat split.
Defined.

(** Witness for X26: a page with an empty token. *)
Lemma GetWebhook_empty_token_repeats_witness :
  GetWebhook 100 emptyTokenPage "arn:aws:codepipeline:us-west-2:123456789012:webhook:b"
  = None.
Proof.
  apply (GetWebhook_empty_token_repeats emptyTokenPage
           "arn:aws:codepipeline:us-west-2:123456789012:webhook:b"
           {| codepipeline.Webhooks := [Some webhookA]; codepipeline.NextToken := Some "" |});
    reflexivity.
Defined.

(** ** The Cognito user pools data source *)

(** The listing loop on a service that answers in finitely many pages. *)
Lemma getAllCognitoUserPoolsFrom_served
    (ListUserPools :
       option string -> option cognitoidentityprovider.ListUserPoolsOutput * option error)
    (pages : list cognitoidentityprovider.ListUserPoolsOutput) :
  forall (pools : list (option cognitoidentityprovider.UserPoolDescriptionType))
         (nextToken : string),
    served cognitoidentityprovider.NextToken ListUserPools nextToken pages ->
    getAllCognitoUserPoolsFrom (length pages) ListUserPools pools nextToken
    = Some (Return (pools ++ concat (map cognitoidentityprovider.UserPools pages), None)%list).
Proof.
  induction pages as [|page rest IH]; intros pools nextToken; cbn [served]; [intros []|].
  intros [Hpage Hrest]. cbn [length getAllCognitoUserPoolsFrom map concat]. rewrite Hpage.
  destruct rest as [|page' rest'].
  - rewrite Hrest. cbn [map concat]. now rewrite app_nil_r.
  - destruct Hrest as (token & Htoken & Hserved). rewrite Htoken.
    rewrite (IH _ _ Hserved). now rewrite <- app_assoc.
Qed.

(** X27.  When the service lists the user pools in finitely many pages,
    [getAllCognitoUserPools] ends after asking for each page once and
    returns the pools of all pages, in the order of the pages, without
    error. *)
Theorem getAllCognitoUserPools_gathers_all_pages
    (ListUserPools :
       option string -> option cognitoidentityprovider.ListUserPoolsOutput * option error)
    (pages : list cognitoidentityprovider.ListUserPoolsOutput) :
  served cognitoidentityprovider.NextToken ListUserPools "" pages ->
  getAllCognitoUserPools (length pages) ListUserPools
  = Some (Return (concat (map cognitoidentityprovider.UserPools pages), None)).
Proof.
  intros Hserved. unfold getAllCognitoUserPools.
  now rewrite (getAllCognitoUserPoolsFrom_served _ _ _ _ Hserved).
Qed.

(** The pools with the name, as one pass over the list. *)
Lemma poolsNamed_result (client : ClientIdentity) (name : string)
    (pools : list (option cognitoidentityprovider.UserPoolDescriptionType)) :
  forall ids arns,
    poolsNamed client name pools = Return (ids, arns) ->
    ids = omap (idIfNamed name) pools /\ arns = map (userPoolARN client) ids.
Proof.
  induction pools as [|[pool|] rest IH]; intros ids arns; cbn [poolsNamed].
  - intros [= <- <-]. split; reflexivity.
  - destruct (poolsNamed client name rest) as [[ids' arns']|]; [|discriminate].
    destruct (IH ids' arns' eq_refl) as [Hids Harns].
    cbn [omap list_omap idIfNamed].
    destruct (String.eqb name _); intros [= <- <-]; cbn [map]; split; congruence.
  - discriminate.
Qed.

(** X28.  When [dataSourceUserPoolsRead] succeeds it has set the id to the
    name asked for, [ids] to the ids of the listed pools with exactly that
    name, in the order of the listing, and [arns] to the ARNs built from
    those ids, one for each id; at least one pool was found.  When it
    returns an error it has set nothing. *)
Theorem dataSourceUserPoolsRead_result (fuel : nat)
    (ListUserPools :
       option string -> option cognitoidentityprovider.ListUserPoolsOutput * option error)
    (client : ClientIdentity) (name : string) (d d' : UserPoolsData) (err : option error) :
  dataSourceUserPoolsRead fuel ListUserPools client name d = Some (Return (err, d')) ->
  (err = None ->
   exists pools,
     getAllCognitoUserPools fuel ListUserPools = Some (Return (pools, None))
     /\ data_Id d' = name
     /\ data_ids d' = omap (idIfNamed name) pools
     /\ data_ids d' <> []
     /\ data_arns d' = map (userPoolARN client) (data_ids d'))
  /\ (err <> None -> d' = d).
Proof.
  unfold dataSourceUserPoolsRead.
  destruct (getAllCognitoUserPools fuel ListUserPools) as [[[pools [e|]]|]|];
    try discriminate.
  - intros [= <- <-]. split; [discriminate | reflexivity].
  - destruct (poolsNamed client name pools) as [[ids arns]|] eqn:Hnamed; [|discriminate].
    destruct (poolsNamed_result _ _ _ _ _ Hnamed) as [Hids Harns].
    destruct ids as [|id ids'].
    + cbn. intros [= <- <-]. split; [discriminate | reflexivity].
    + cbn [length Nat.eqb]. intros [= <- <-]. split; [|congruence].
      intros _. exists pools. cbn [data_Id data_ids data_arns].
      repeat split; [assumption | discriminate | assumption].
Qed.

(** Witness for X27: a listing in two pages. *)
Lemma getAllCognitoUserPools_gathers_all_pages_witness :
  getAllCognitoUserPools 2 twoPoolPages
  = Some (Return ([poolNamed "us-west-2_aaa" "staff"; poolNamed "us-west-2_bbb" "guests";
                   poolNamed "us-west-2_ccc" "staff"], None)).
Proof.
  apply (getAllCognitoUserPools_gathers_all_pages twoPoolPages
           [ {| cognitoidentityprovider.UserPools :=
                  [poolNamed "us-west-2_aaa" "staff"; poolNamed "us-west-2_bbb" "guests"];
                cognitoidentityprovider.NextToken := Some "page2" |};
             {| cognitoidentityprovider.UserPools := [poolNamed "us-west-2_ccc" "staff"];
                cognitoidentityprovider.NextToken := None |} ]).
  cbn. split; [reflexivity|]. exists "page2". repeat split.
Defined.

(** Witness for X28: the two pools named [staff] of that listing. *)
Lemma dataSourceUserPoolsRead_result_witness :
  exists pools,
    getAllCognitoUserPools 2 twoPoolPages = Some (Return (pools, None))
    /\ "staff" = "staff"
    /\ ["us-west-2_aaa"; "us-west-2_ccc"] = omap (idIfNamed "staff") pools
    /\ ["us-west-2_aaa"; "us-west-2_ccc"] <> []
    /\ [ "arn:aws:cognito-idp:us-west-2:123456789012:userpool/us-west-2_aaa";
         "arn:aws:cognito-idp:us-west-2:123456789012:userpool/us-west-2_ccc" ]
       = map (userPoolARN sweeperIdentity) ["us-west-2_aaa"; "us-west-2_ccc"].
Proof.
  destruct (dataSourceUserPoolsRead_result 2 twoPoolPages sweeperIdentity "staff" noData
              {| data_Id := "staff";
                 data_ids := ["us-west-2_aaa"; "us-west-2_ccc"];
                 data_arns :=
                   [ "arn:aws:cognito-idp:us-west-2:123456789012:userpool/us-west-2_aaa";
                     "arn:aws:cognito-idp:us-west-2:123456789012:userpool/us-west-2_ccc" ] |}
              None) as [Hok _].
  - vm_compute. reflexivity.
  - apply Hok. reflexivity.
Defined.
